(** * Business-card service: a shallow embedding of [app.py]

    The three database-backed request handlers of the Flask application
    ([process_business_card], [get_cards], [get_card]) are embedded as
    functions in a small state-and-exception monad.  The state is the
    PostgreSQL store (the [business_cards] table, its id sequence) together
    with the chronological log of driver calls made on connections; an
    exception is a Python exception, carried as the text of [str(e)].  The
    [print] calls of the handlers have no bearing on responses or on the
    store and are left out. *)

From Stdlib Require Import Ascii String ZArith.
From stdpp Require Import gmap strings list sorting pretty.

Set Warnings "-register-all".

#[local] Open Scope Z_scope.
#[local] Open Scope string_scope.
#[local] Open Scope list_scope.

(** ** Python strings

    A [string] is a Python [str] whose characters are the code points below
    256.  [isspace] is the whitespace test used by [str.strip()] on that
    range: TAB..CR, FS..US, SPACE, NEL and NBSP. *)

Definition isspace (c : ascii) : bool :=
  let n := nat_of_ascii c in
  ((9 <=? n)%nat && (n <=? 13)%nat) || ((28 <=? n)%nat && (n <=? 32)%nat)
  || (n =? 133)%nat || (n =? 160)%nat.

Fixpoint lstrip (s : string) : string :=
  match s with
  | EmptyString => EmptyString
  | String c r => if isspace c then lstrip r else s
  end.

Fixpoint rstrip (s : string) : string :=
  match s with
  | EmptyString => EmptyString
  | String c r =>
      match rstrip r with
      | EmptyString => if isspace c then EmptyString else String c EmptyString
      | r' => String c r'
      end
  end.

(** [s.strip()] *)
Definition strip (s : string) : string := rstrip (lstrip s).

(** Truthiness of a [str]: [bool(s)]. *)
Definition truthy (s : string) : bool :=
  match s with EmptyString => false | String _ _ => true end.

(** The one-character string [chr(10)]. *)
Definition nl : string := String (ascii_of_nat 10) EmptyString.

(** [sep.join(parts)] *)
Fixpoint join (sep : string) (parts : list string) : string :=
  match parts with
  | [] => EmptyString
  | [p] => p
  | p :: rest => p +:+ sep +:+ join sep rest
  end.

(** ** Python values

    The values a decoded JSON body can hold, plus [datetime] for the [dt]
    column of a fetched row.  A float is kept as mantissa and exponent; no
    handler computes with it. *)

Inductive pyval : Type :=
  | PNone
  | PBool (b : bool)
  | PInt (n : Z)
  | PFloat (m e : Z)
  | PStr (s : string)
  | PList (l : list pyval)
  | PDict (d : gmap string pyval)
  | PDatetime (t : Z).

Definition type_name (v : pyval) : string :=
  match v with
  | PNone => "NoneType"
  | PBool _ => "bool"
  | PInt _ => "int"
  | PFloat _ _ => "float"
  | PStr _ => "str"
  | PList _ => "list"
  | PDict _ => "dict"
  | PDatetime _ => "datetime.datetime"
  end.

(** Text of the [AttributeError] raised by [v.attr] when [v] has no [attr]. *)
Definition no_attribute (v : pyval) (attr : string) : string :=
  "'" +:+ type_name v +:+ "' object has no attribute '" +:+ attr +:+ "'".

(** ** The store *)

(** A row of [business_cards].  The six text columns are nullable. *)
Record row : Type := mk_row {
  row_id : Z;
  full_name : option string;
  email : option string;
  phone : option string;
  company_name : option string;
  website : option string;
  notes : option string;
  dt : Z
}.

(** Driver calls recorded on the connection log. *)
Inductive event : Type :=
  | EConnect | ECursor | EExecute | ECommit | ECursorClose | EClose.

#[global] Instance event_eq_dec : EqDecision event.
Proof. solve_decision. Defined.

(** [table]: the committed rows, in insertion order.  [next_id]: the next
    value of the id sequence.  [log]: driver calls, oldest first. *)
Record world : Type := World {
  table : list row;
  next_id : Z;
  log : list event
}.

Definition emit (e : event) (w : world) : world :=
  {| table := table w; next_id := next_id w; log := log w ++ [e] |}.

(** What the process environment and the database server decide for one
    request: the [DATABASE_URL] variable and, for each driver call that can
    fail, the text of the exception it raises (if any). *)
Record env : Type := Env {
  database_url : option string;
  connect_error : option string;
  execute_error : option string;
  commit_error : option string
}.

(** ** Exceptions and state *)

Inductive result (A : Type) : Type :=
  | Ok (a : A)
  | Raise (msg : string).
Arguments Ok {A} a.
Arguments Raise {A} msg.

Definition M (A : Type) : Type := world -> result A * world.

Definition ret {A} (a : A) : M A := fun w => (Ok a, w).

Definition raise {A} (msg : string) : M A := fun w => (Raise msg, w).

Definition bind {A B} (m : M A) (k : A -> M B) : M B :=
  fun w =>
    match m w with
    | (Ok a, w') => k a w'
    | (Raise msg, w') => (Raise msg, w')
    end.

(** [try: return m  except Exception as e: return h(str(e))] *)
Definition try_except {A} (m : M A) (h : string -> A) : world -> A * world :=
  fun w =>
    match m w with
    | (Ok a, w') => (a, w')
    | (Raise msg, w') => (h msg, w')
    end.

Definition lift {A} (r : result A) : M A := fun w => (r, w).

Definition tell (e : event) : M unit := fun w => (Ok tt, emit e w).

Declare Scope py_scope.
Delimit Scope py_scope with py.
Notation "x <- m ;; k" := (bind m (fun x => k))
  (at level 100, m at next level, right associativity) : py_scope.
Notation "m ;;; k" := (bind m (fun _ => k))
  (at level 100, right associativity) : py_scope.
#[local] Open Scope py_scope.

(** ** The database driver *)

(** [get_db_connection()]: [ValueError] when [DATABASE_URL] is unset or
    empty, whatever [psycopg2.connect] raises otherwise; the [except] clause
    of the helper re-raises. *)
Definition get_db_connection (e : env) : M unit :=
  let missing := "DATABASE_URL environment variable is required" in
  match database_url e with
  | None => raise missing
  | Some url =>
      if truthy url then
        match connect_error e with
        | Some msg => raise msg
        | None => tell EConnect
        end
      else raise missing
  end.

(** [conn.cursor()] *)
Definition cursor : M unit := tell ECursor.

(** Modelled from the spec: the definition of the [business_cards] table,
    which the service expects to exist and which is not in the repository.
    The store assigns [id] on insert; ids come from a sequence, so each is
    greater than all assigned before, and the sequence has moved on even if
    the transaction is never committed. *)
Definition assign_id : M Z :=
  fun w =>
    (Ok (next_id w),
     {| table := table w; next_id := next_id w + 1; log := log w |}).

(** [cur.execute(insert_sql, data_to_save)] followed by [cur.fetchone()]:
    the statement supplies the six text columns, the store supplies [id]
    and stamps [dt] with its clock [now].  The row is returned as the
    uncommitted write of the transaction and reaches [table] at [commit]. *)
Definition execute_insert (e : env) (now : Z)
    (name email phone company website notes : string) : M row :=
  match execute_error e with
  | Some msg => raise msg
  | None =>
      i <- assign_id ;;
      tell EExecute ;;;
      ret {| row_id := i;
             full_name := Some name; email := Some email;
             phone := Some phone; company_name := Some company;
             website := Some website; notes := Some notes; dt := now |}
  end.

(** [conn.commit()] with the transaction's uncommitted writes. *)
Definition commit (e : env) (pending : list row) : M unit :=
  fun w =>
    match commit_error e with
    | Some msg => (Raise msg, w)
    | None =>
        (Ok tt,
         {| table := table w ++ pending; next_id := next_id w;
            log := log w ++ [ECommit] |})
    end.

(** Order of [ORDER BY dt DESC]. *)
Definition dt_desc (a b : row) : Prop := dt b <= dt a.

#[global] Instance dt_desc_dec : RelDecision dt_desc.
Proof. intros a b. unfold dt_desc. apply _. Defined.

(** [cur.execute("SELECT ... FROM business_cards ORDER BY dt DESC")]:
    the result set held by the cursor. *)
Definition execute_select_all (e : env) : M (list row) :=
  fun w =>
    match execute_error e with
    | Some msg => (Raise msg, w)
    | None => (Ok (merge_sort dt_desc (table w)), emit EExecute w)
    end.

(** [cur.execute("SELECT * FROM business_cards WHERE id = %s", (card_id,))] *)
Definition execute_select_by_id (e : env) (card_id : Z) : M (list row) :=
  fun w =>
    match execute_error e with
    | Some msg => (Raise msg, w)
    | None =>
        (Ok (filter (fun r => row_id r = card_id) (table w)),
         emit EExecute w)
    end.

(** [cur.fetchall()] and [cur.fetchone()] on a result set. *)
Definition fetchall (rows : list row) : list row := rows.
Definition fetchone (rows : list row) : option row := head rows.

(** [cur.close()] and [conn.close()] *)
Definition cursor_close : M unit := tell ECursorClose.
Definition close : M unit := tell EClose.

(** ** Requests and responses *)

(** The body of a POST: JSON (decoded by [request.get_json()]) or a form
    ([request.form.to_dict()], whose values are all strings). *)
Inductive request : Type :=
  | JsonBody (v : pyval)
  | FormBody (f : gmap string string).

Definition request_data (req : request) : pyval :=
  match req with
  | JsonBody v => v
  | FormBody f => PDict (PStr <$> f)
  end.

(** [data.get(key, dflt)] *)
Definition py_get (data : pyval) (key : string) (dflt : pyval) : result pyval :=
  match data with
  | PDict d => Ok (default dflt (d !! key))
  | v => Raise (no_attribute v "get")
  end.

(** [v.strip()] *)
Definition py_strip (v : pyval) : result string :=
  match v with
  | PStr s => Ok (strip s)
  | v => Raise (no_attribute v "strip")
  end.

(** [data.get(key, '').strip()] *)
Definition field (data : pyval) (key : string) : result string :=
  match py_get data key (PStr EmptyString) with
  | Ok v => py_strip v
  | Raise msg => Raise msg
  end.

(** A Flask response: status code and the object given to [jsonify]. *)
Record response : Type := Response { status : Z; body : pyval }.

Definition opt_str (o : option string) : pyval :=
  match o with Some s => PStr s | None => PNone end.

(** [dict(card)] for a fetched row. *)
Definition row_dict (r : row) : pyval :=
  PDict (<["id" := PInt (row_id r)]>
        (<["full_name" := opt_str (full_name r)]>
        (<["email" := opt_str (email r)]>
        (<["phone" := opt_str (phone r)]>
        (<["company_name" := opt_str (company_name r)]>
        (<["website" := opt_str (website r)]>
        (<["notes" := opt_str (notes r)]>
        (<["dt" := PDatetime (dt r)]> ∅)))))))).

Definition error_body (msg : string) : pyval :=
  PDict (<["error" := PStr msg]> ∅).

(** ** The handlers *)

(** The combined notes column: the labelled, non-empty sub-fields. *)
Definition notes_parts (title address additional_notes : string) : list string :=
  (if truthy title then ["Title: " +:+ title] else [])
  ++ (if truthy address then ["Address: " +:+ address] else [])
  ++ (if truthy additional_notes then ["Notes: " +:+ additional_notes] else []).

Definition validation_error : response :=
  {| status := 400;
     body := error_body
       "At least one of name, email, phone, or company is required" |}.

Definition echo_data
    (name email phone company website title address additional_notes : string)
    : pyval :=
  PDict (<["name" := PStr name]>
        (<["email" := PStr email]>
        (<["phone" := PStr phone]>
        (<["company" := PStr company]>
        (<["website" := PStr website]>
        (<["title" := PStr title]>
        (<["address" := PStr address]>
        (<["notes" := PStr additional_notes]> ∅)))))))).

Definition success_body (card_id : Z) (data : pyval) : pyval :=
  PDict (<["message" := PStr "Business card saved successfully"]>
        (<["id" := PInt card_id]>
        (<["data" := data]> ∅))).

(** POST [/process-card] *)
Definition process_business_card (e : env) (now : Z) (req : request)
    : world -> response * world :=
  try_except
    (let data := request_data req in
     name <- lift (field data "name") ;;
     email <- lift (field data "email") ;;
     phone <- lift (field data "phone") ;;
     company <- lift (field data "company") ;;
     website <- lift (field data "website") ;;
     title <- lift (field data "title") ;;
     address <- lift (field data "address") ;;
     additional_notes <- lift (field data "notes") ;;
     if negb (truthy name || truthy email || truthy phone || truthy company)
     then ret validation_error
     else
       let notes := join nl (notes_parts title address additional_notes) in
       get_db_connection e ;;;
       cursor ;;;
       r <- execute_insert e now name email phone company website notes ;;
       let card_id := row_id r in
       commit e [r] ;;;
       cursor_close ;;;
       close ;;;
       ret {| status := 200;
              body := success_body card_id
                (echo_data name email phone company website
                           title address additional_notes) |})
    (fun msg => {| status := 500; body := error_body ("Save failed: " +:+ msg) |}).

(** GET [/cards] *)
Definition get_cards (e : env) : world -> response * world :=
  try_except
    (get_db_connection e ;;;
     cursor ;;;
     rows <- execute_select_all e ;;
     let cards := fetchall rows in
     cursor_close ;;;
     close ;;;
     ret {| status := 200;
            body := PDict (<["cards" := PList (row_dict <$> cards)]>
                          (<["count" := PInt (Z.of_nat (length cards))]> ∅)) |})
    (fun msg =>
       {| status := 500; body := error_body ("Failed to fetch cards: " +:+ msg) |}).

(** GET [/cards/<int:card_id>].  [not card] holds for [None] only: a fetched
    row always carries its columns. *)
Definition get_card (e : env) (card_id : Z) : world -> response * world :=
  try_except
    (get_db_connection e ;;;
     cursor ;;;
     rows <- execute_select_by_id e card_id ;;
     let card := fetchone rows in
     cursor_close ;;;
     close ;;;
     match card with
     | None => ret {| status := 404; body := error_body "Card not found" |}
     | Some c =>
         ret {| status := 200; body := PDict (<["card" := row_dict c]> ∅) |}
     end)
    (fun msg =>
       {| status := 500; body := error_body ("Failed to fetch card: " +:+ msg) |}).

(** ** Auxiliary definitions used by the statements *)

(** The eight request fields after [.strip()]. *)
Record card_fields : Type := Fields {
  f_name : string; f_email : string; f_phone : string; f_company : string;
  f_website : string; f_title : string; f_address : string; f_notes : string
}.

(** The eight extractions at the head of [process_business_card], in source
    order; the first failing one decides the exception. *)
Definition extract (data : pyval) : result card_fields :=
  match field data "name" with Raise m => Raise m | Ok name =>
  match field data "email" with Raise m => Raise m | Ok email =>
  match field data "phone" with Raise m => Raise m | Ok phone =>
  match field data "company" with Raise m => Raise m | Ok company =>
  match field data "website" with Raise m => Raise m | Ok website =>
  match field data "title" with Raise m => Raise m | Ok title =>
  match field data "address" with Raise m => Raise m | Ok address =>
  match field data "notes" with Raise m => Raise m | Ok additional_notes =>
    Ok (Fields name email phone company website title address additional_notes)
  end end end end end end end end.

(** [any([name, email, phone, company])] *)
Definition has_key_field (f : card_fields) : bool :=
  truthy (f_name f) || truthy (f_email f) || truthy (f_phone f)
  || truthy (f_company f).

(** The value the handler binds to the [notes] column. *)
Definition combined_notes (f : card_fields) : string :=
  join nl (notes_parts (f_title f) (f_address f) (f_notes f)).

(** The row the insert writes for fields [f] when the sequence stands at
    [i] and the clock at [now]. *)
Definition new_row (i now : Z) (f : card_fields) : row :=
  {| row_id := i;
     full_name := Some (f_name f); email := Some (f_email f);
     phone := Some (f_phone f); company_name := Some (f_company f);
     website := Some (f_website f); notes := Some (combined_notes f);
     dt := now |}.

Definition echo (f : card_fields) : pyval :=
  echo_data (f_name f) (f_email f) (f_phone f) (f_company f)
            (f_website f) (f_title f) (f_address f) (f_notes f).

Definition save_failed (msg : string) : response :=
  {| status := 500; body := error_body ("Save failed: " +:+ msg) |}.

(** The environment lets every driver call of a request go through. *)
Definition healthy (e : env) : bool :=
  match database_url e, connect_error e, execute_error e, commit_error e with
  | Some url, None, None, None => truthy url
  | _, _, _, _ => false
  end.

(** Every stored id was drawn from the sequence before its current value. *)
Definition ids_below (w : world) : Prop :=
  Forall (fun r => row_id r < next_id w) (table w).

(** Connections opened and not yet closed, read off the log. *)
Definition opened (l : list event) : nat := length (filter (eq EConnect) l).
Definition closed (l : list event) : nat := length (filter (eq EClose) l).
Definition leaked (l : list event) : nat := opened l - closed l.

(** The combined notes as the data model words it: one line per sub-field
    that is non-empty, label first, in the order title, address, notes. *)
Definition labelled_lines (title address additional_notes : string) : list string :=
  (fun p => fst p +:+ snd p) <$>
    filter (fun p => snd p <> EmptyString)
      [("Title: ", title); ("Address: ", address); ("Notes: ", additional_notes)].

(** The world after a create that went through. *)
Definition saved (now : Z) (f : card_fields) (w : world) : world :=
  {| table := table w ++ [new_row (next_id w) now f];
     next_id := next_id w + 1;
     log := log w ++ [EConnect; ECursor; EExecute; ECommit; ECursorClose; EClose] |}.

(** The 404 of [get_card] and the world after a read that went through. *)
Definition not_found : response :=
  {| status := 404; body := error_body "Card not found" |}.

Definition after_read (w : world) : world :=
  {| table := table w; next_id := next_id w;
     log := log w ++ [EConnect; ECursor; EExecute; ECursorClose; EClose] |}.

(** The environment lets the driver calls of a read go through. *)
Definition can_read (e : env) : bool :=
  match database_url e, connect_error e, execute_error e with
  | Some url, None, None => truthy url
  | _, _, _ => false
  end.

(** ** Sequences of requests against one store *)

Inductive op : Type :=
  | Create (e : env) (now : Z) (req : request)
  | ListCards (e : env)
  | GetCard (e : env) (card_id : Z).

Definition step (o : op) : world -> response * world :=
  match o with
  | Create e now req => process_business_card e now req
  | ListCards e => get_cards e
  | GetCard e card_id => get_card e card_id
  end.

(** Serve the requests in order; the responses come back in the same order. *)
Fixpoint run (ops : list op) (w : world) : list response * world :=
  match ops with
  | [] => ([], w)
  | o :: rest =>
      let '(r, w1) := step o w in
      let '(rs, w2) := run rest w1 in
      (r :: rs, w2)
  end.

(** The [id] member of a response body, present on a successful create only. *)
Definition response_id (r : response) : option Z :=
  match body r with
  | PDict d => match d !! "id" with Some (PInt i) => Some i | _ => None end
  | _ => None
  end.

(** Ids handed out by a sequence of responses, oldest first. *)
Definition assigned_ids (rs : list response) : list Z :=
  omap response_id rs.

(** ** Sample values *)

Definition empty_world : world := {| table := []; next_id := 1; log := [] |}.

Definition up : env :=
  {| database_url := Some "postgresql://cards"; connect_error := None;
     execute_error := None; commit_error := None |}.

Definition insert_fails : env :=
  {| database_url := Some "postgresql://cards"; connect_error := None;
     execute_error := Some "relation does not exist"; commit_error := None |}.

Definition unreachable : env :=
  {| database_url := Some "postgresql://cards";
     connect_error := Some "could not connect to server";
     execute_error := None; commit_error := None |}.

(** The card posted by [test_process_card]. *)
Definition john_doe : request :=
  JsonBody (PDict
    (<["name" := PStr "John Doe"]>
    (<["email" := PStr "john@techcorp.com"]>
    (<["phone" := PStr "5551234567"]>
    (<["company" := PStr "Tech Corp"]>
    (<["title" := PStr "Software Engineer"]>
    (<["website" := PStr "techcorp.com"]>
    (<["address" := PStr "123 Main St, City, State"]>
    (<["notes" := PStr "Met at tech conference 2024"]> ∅))))))))).

Definition john_doe_fields : card_fields :=
  {| f_name := "John Doe"; f_email := "john@techcorp.com";
     f_phone := "5551234567"; f_company := "Tech Corp";
     f_website := "techcorp.com"; f_title := "Software Engineer";
     f_address := "123 Main St, City, State";
     f_notes := "Met at tech conference 2024" |}.

(** A card with a name and nothing else, padded with whitespace. *)
Definition name_only : request :=
  FormBody (<["name" := "  Ada Lovelace "]> (<["title" := "   "]> ∅)).

Definition empty_json : request := JsonBody (PDict ∅).

Definition numeric_website : request :=
  JsonBody (PDict (<["website" := PInt 5]> ∅)).

(** The store after the card of [test_process_card] and a name-only card,
    created in that order at times 100 and 200. *)
Definition two_cards : world :=
  snd (process_business_card up 200 name_only
         (snd (process_business_card up 100 john_doe empty_world))).

(** ** Predicates on strings used by the statements *)

(** Every character of [s] is whitespace. *)
Fixpoint blank (s : string) : bool :=
  match s with
  | EmptyString => true
  | String c r => isspace c && blank r
  end.

Definition first_char (s : string) : option ascii :=
  match s with EmptyString => None | String c _ => Some c end.

Fixpoint last_char (s : string) : option ascii :=
  match s with
  | EmptyString => None
  | String c EmptyString => Some c
  | String _ r => last_char r
  end.

(** [chr(10)] occurs in [s]. *)
Fixpoint has_newline (s : string) : bool :=
  match s with
  | EmptyString => false
  | String c r => (nat_of_ascii c =? 10)%nat || has_newline r
  end.

(** ** Startup and health check *)

(** What [get_db_connection] prints before it re-raises. *)
Definition connection_error_output (e : env) (w : world) : list string :=
  match get_db_connection e w with
  | (Raise msg, _) => ["Database connection error: " +:+ msg]
  | (Ok _, _) => []
  end.

(** The query of [initialize_database] on [information_schema.columns]:
    [catalog] is what the server holds for [business_cards], as pairs of
    [column_name] and [data_type] in ordinal order. *)
Definition execute_select_columns (e : env) (catalog : list (string * string))
    : M (list (string * string)) :=
  match execute_error e with
  | Some msg => raise msg
  | None => tell EExecute ;;; ret catalog
  end.

(** The lines printed for the fetched [columns]. *)
Definition column_report (columns : list (string * string)) : list string :=
  match columns with
  | [] => ["Warning: business_cards table not found!"]
  | _ =>
      ("Database connection verified. Found business_cards table with "
         +:+ pretty (length columns) +:+ " columns.")
      :: ((fun col => "  - " +:+ fst col +:+ ": " +:+ snd col) <$> columns)
  end.

(** [initialize_database()]: the lines it prints, and the store after it.
    It returns normally whatever happens. *)
Definition initialize_database (e : env) (catalog : list (string * string))
    : world -> list string * world :=
  fun w =>
    let '(printed, w') :=
      try_except
        (get_db_connection e ;;;
         cursor ;;;
         rows <- execute_select_columns e catalog ;;
         let columns := rows in
         let printed := column_report columns in
         cursor_close ;;;
         close ;;;
         ret printed)
        (fun msg => ["Database initialization error: " +:+ msg]) w in
    (connection_error_output e w ++ printed, w').

(** [create_app()]: the startup check, then the application itself. *)
Definition create_app (e : env) (catalog : list (string * string))
    : world -> list string * world :=
  initialize_database e catalog.

(** GET [/]; [utcnow_iso] is [datetime.utcnow().isoformat()]. *)
Definition health_check (utcnow_iso : string) : response :=
  {| status := 200;
     body := PDict (<["status" := PStr "healthy"]>
                   (<["service" := PStr "Business Card Processor"]>
                   (<["timestamp" := PStr utcnow_iso]> ∅))) |}.

(** ** The test script [test_api.py]

    The script talks to the service over HTTP.  [server_up] says whether
    the requests get through at all ([requests] raises otherwise, and each
    test catches that); the other fields are what the environment decides
    for the request of each test, and the store clock at the two POSTs. *)
Record session : Type := Session {
  server_up : bool;
  utcnow_iso : string;
  e_json : env; now_json : Z;
  e_form : env; now_form : Z;
  e_cards : env;
  e_card : env
}.

(** [test_data] of [test_process_card]. *)
Definition test_data : gmap string string :=
  <["name" := "John Doe"]>
  (<["email" := "john@techcorp.com"]>
  (<["phone" := "5551234567"]>
  (<["company" := "Tech Corp"]>
  (<["title" := "Software Engineer"]>
  (<["website" := "techcorp.com"]>
  (<["address" := "123 Main St, City, State"]>
  (<["notes" := "Met at tech conference 2024"]> ∅))))))).

(** [test_health_check(base_url)] *)
Definition test_health_check (s : session) : bool :=
  if server_up s then bool_decide (status (health_check (utcnow_iso s)) = 200)
  else false.

(** [test_process_card(base_url)]: the id of the created card, or [None].
    The form POST is tried only when the JSON POST is not answered 200. *)
Definition test_process_card (s : session) : world -> option Z * world :=
  fun w =>
    if server_up s then
      let '(r, w1) :=
        process_business_card (e_json s) (now_json s)
          (JsonBody (PDict (PStr <$> test_data))) w in
      if bool_decide (status r = 200) then (response_id r, w1)
      else
        let '(r2, w2) :=
          process_business_card (e_form s) (now_form s) (FormBody test_data) w1 in
        if bool_decide (status r2 = 200) then (response_id r2, w2)
        else (None, w2)
    else (None, w).

(** [test_get_cards(base_url)] *)
Definition test_get_cards (s : session) : world -> bool * world :=
  fun w =>
    if server_up s then
      let '(r, w1) := get_cards (e_cards s) w in
      (bool_decide (status r = 200), w1)
    else (false, w).

(** [not card_id] for an id or [None]. *)
Definition falsy_id (card_id : option Z) : bool :=
  match card_id with
  | None => true
  | Some i => bool_decide (i = 0)
  end.

(** GET [/cards/<card_id>] as routed by Flask: the [int] converter matches
    digits only, so a negative id reaches no handler and is answered with
    the framework's own 404 page. *)
Definition route_get_card (e : env) (card_id : Z) : world -> response * world :=
  fun w =>
    if bool_decide (card_id < 0)
    then ({| status := 404; body := PStr "404 Not Found" |}, w)
    else get_card e card_id w.

(** [test_get_single_card(base_url, card_id)]; skipped, and counted as
    passed, when [card_id] is falsy. *)
Definition test_get_single_card (s : session) (card_id : option Z)
    : world -> bool * world :=
  fun w =>
    if falsy_id card_id then (true, w)
    else if server_up s then
      let '(r, w1) := route_get_card (e_card s) (default 0 card_id) w in
      (bool_decide (status r = 200), w1)
    else (false, w).

(** [main()]: the number of tests passed and the exit status. *)
Definition main (s : session) : world -> (nat * Z) * world :=
  fun w =>
    let total_tests := 4%nat in
    let t1 := if test_health_check s then 1%nat else 0%nat in
    let '(card_id, w1) := test_process_card s w in
    let t2 := if card_id is Some _ then 1%nat else 0%nat in
    let '(ok3, w2) := test_get_cards s w1 in
    let t3 := if ok3 then 1%nat else 0%nat in
    let '(ok4, w3) := test_get_single_card s card_id w2 in
    let t4 := if ok4 then 1%nat else 0%nat in
    let tests_passed := (t1 + t2 + t3 + t4)%nat in
    ((tests_passed, if bool_decide (tests_passed = total_tests) then 0 else 1), w3).

(** A session in which everything works, and one with the service down. *)
Definition all_up : session :=
  {| server_up := true; utcnow_iso := "2024-05-01T12:00:00.000000";
     e_json := up; now_json := 100; e_form := up; now_form := 101;
     e_cards := up; e_card := up |}.

Definition server_down : session :=
  {| server_up := false; utcnow_iso := "2024-05-01T12:00:00.000000";
     e_json := up; now_json := 100; e_form := up; now_form := 101;
     e_cards := up; e_card := up |}.

(** The JSON POST hits a failing INSERT; the form POST goes through. *)
Definition json_post_fails : session :=
  {| server_up := true; utcnow_iso := "2024-05-01T12:00:00.000000";
     e_json := insert_fails; now_json := 100; e_form := up; now_form := 101;
     e_cards := up; e_card := up |}.

(** The columns of [business_cards] as the service expects them. *)
Definition expected_catalog : list (string * string) :=
  [("id", "integer"); ("full_name", "text"); ("email", "text");
   ("phone", "text"); ("company_name", "text"); ("website", "text");
   ("notes", "text"); ("dt", "timestamp without time zone")].

(** ** Vocabulary of the statements on trimming and on returned cards *)

(** [t] is [raw] with its leading and trailing whitespace removed: [raw] is
    [t] between two runs of whitespace, and [t] neither starts nor ends with
    a whitespace character. *)
Definition trim_of (raw t : string) : Prop :=
  exists l r : string,
    raw = l +:+ t +:+ r /\ blank l = true /\ blank r = true /\
    (forall c, first_char t = Some c -> isspace c = false) /\
    (forall c, last_char t = Some c -> isspace c = false).

(** The body is an object that binds [key] to a string, an absent key
    counting as the empty string, and [t] is that string trimmed. *)
Definition trimmed_input (data : pyval) (key : string) (t : string) : Prop :=
  exists (d : gmap string pyval) (raw : string),
    data = PDict d /\
    (d !! key = Some (PStr raw) \/ (d !! key = None /\ raw = EmptyString)) /\
    trim_of raw t.

(** The JSON object [c] is the full row [r]: exactly the eight columns,
    each with the value the row holds (a NULL column as [None]). *)
Definition card_shows (c : pyval) (r : row) : Prop :=
  exists m : gmap string pyval,
    c = PDict m /\
    dom m = {[ "id"; "full_name"; "email"; "phone"; "company_name";
               "website"; "notes"; "dt" ]} /\
    m !! "id" = Some (PInt (row_id r)) /\
    m !! "full_name" = Some (from_option PStr PNone (full_name r)) /\
    m !! "email" = Some (from_option PStr PNone (email r)) /\
    m !! "phone" = Some (from_option PStr PNone (phone r)) /\
    m !! "company_name" = Some (from_option PStr PNone (company_name r)) /\
    m !! "website" = Some (from_option PStr PNone (website r)) /\
    m !! "notes" = Some (from_option PStr PNone (notes r)) /\
    m !! "dt" = Some (PDatetime (dt r)).

(** [c] is a JSON object whose [id] is [i]. *)
Definition card_id_is (c : pyval) (i : Z) : Prop :=
  exists m : gmap string pyval, c = PDict m /\ m !! "id" = Some (PInt i).

(** In [cards], a card with id [i] stands before a card with id [j]. *)
Definition listed_before (cards : list pyval) (i j : Z) : Prop :=
  exists (l1 l2 l3 : list pyval) (ci cj : pyval),
    cards = l1 ++ ci :: l2 ++ cj :: l3 /\ card_id_is ci i /\ card_id_is cj j.

(** The card of [test_process_card] with whitespace around every field. *)
Definition padded_card : request :=
  JsonBody (PDict
    (<["name" := PStr "  John Doe "]>
    (<["email" := PStr " john@techcorp.com"]>
    (<["phone" := PStr "5551234567  "]>
    (<["company" := PStr " Tech Corp "]>
    (<["title" := PStr "  Software Engineer"]>
    (<["website" := PStr "techcorp.com "]>
    (<["address" := PStr " 123 Main St, City, State "]>
    (<["notes" := PStr "  Met at tech conference 2024  "]> ∅))))))))).

(** ** Basic facts *)

Lemma truthy_spec (s : string) : truthy s = true <-> s <> EmptyString.
Proof. destruct s; simpl; split; congruence. Qed.

Lemma truthy_false (s : string) : truthy s = false <-> s = EmptyString.
Proof. destruct s; simpl; split; congruence. Qed.

Lemma notes_parts_labelled (t a n : string) :
  notes_parts t a n = labelled_lines t a n.
Proof.
  unfold notes_parts, labelled_lines.
  destruct t, a, n; reflexivity.
Qed.

(** The handler is the extraction, then the validation gate, then the save. *)
Lemma process_business_card_extract (e : env) (now : Z) (req : request) (w : world) :
  process_business_card e now req w =
  match extract (request_data req) with
  | Raise msg => (save_failed msg, w)
  | Ok f =>
      if negb (has_key_field f) then (validation_error, w)
      else
        try_except
          (get_db_connection e ;;;
           cursor ;;;
           r <- execute_insert e now (f_name f) (f_email f) (f_phone f)
                  (f_company f) (f_website f) (combined_notes f) ;;
           commit e [r] ;;;
           cursor_close ;;;
           close ;;;
           ret {| status := 200; body := success_body (row_id r) (echo f) |})
          save_failed w
  end.
Proof.
  unfold process_business_card, extract, try_except, bind, lift.
  generalize (request_data req) as data; intros data.
  destruct (field data "name") as [name|]; [|reflexivity].
  destruct (field data "email") as [email|]; [|reflexivity].
  destruct (field data "phone") as [phone|]; [|reflexivity].
  destruct (field data "company") as [company|]; [|reflexivity].
  destruct (field data "website") as [website|]; [|reflexivity].
  destruct (field data "title") as [title|]; [|reflexivity].
  destruct (field data "address") as [address|]; [|reflexivity].
  destruct (field data "notes") as [additional_notes|]; [|reflexivity].
  unfold has_key_field; simpl.
  destruct (negb _); reflexivity.
Qed.

(** ** Trimming *)

Lemma lstrip_head (s : string) :
  lstrip s = EmptyString \/
  exists c r, lstrip s = String c r /\ isspace c = false.
Proof.
  induction s as [|c r IH]; simpl; [left; reflexivity|].
  destruct (isspace c) eqn:Hc; [exact IH|].
  right. exists c, r. split; [reflexivity|exact Hc].
Qed.

Lemma rstrip_head (c : ascii) (r : string) :
  isspace c = false -> exists r', rstrip (String c r) = String c r'.
Proof.
  intros Hc. simpl. destruct (rstrip r); [rewrite Hc|]; eauto.
Qed.

Lemma rstrip_last (s : string) (c : ascii) :
  last_char (rstrip s) = Some c -> isspace c = false.
Proof.
  induction s as [|a r IH]; simpl; [discriminate|].
  destruct (rstrip r) as [|b r'] eqn:Hr.
  - destruct (isspace a) eqn:Ha; simpl; [discriminate|].
    intros [= <-]. exact Ha.
  - simpl. exact IH.
Qed.

Lemma rstrip_idem (s : string) : rstrip (rstrip s) = rstrip s.
Proof.
  induction s as [|a r IH]; simpl; [reflexivity|].
  destruct (rstrip r) as [|b r'] eqn:Hr.
  - destruct (isspace a) eqn:Ha; simpl; [reflexivity|]. rewrite Ha. reflexivity.
  - change (rstrip (String a (String b r')) = String a (String b r')).
    simpl in IH |- *. rewrite IH. reflexivity.
Qed.

(** [strip] removes whitespace at both ends and nothing else. *)
Lemma strip_trimmed (s : string) :
  (forall c, first_char (strip s) = Some c -> isspace c = false) /\
  (forall c, last_char (strip s) = Some c -> isspace c = false).
Proof.
  unfold strip. split; [|intros c; apply rstrip_last].
  intros c. destruct (lstrip_head s) as [->|(a & r & -> & Ha)].
  - simpl. discriminate.
  - destruct (rstrip_head a r Ha) as [r' ->]. simpl. intros [= <-]. exact Ha.
Qed.

Lemma strip_idem (s : string) : strip (strip s) = strip s.
Proof.
  unfold strip. destruct (lstrip_head s) as [->|(a & r & -> & Ha)].
  - reflexivity.
  - destruct (rstrip_head a r Ha) as [r' Hr]. rewrite Hr.
    simpl lstrip. rewrite Ha. rewrite <- Hr. apply rstrip_idem.
Qed.

Lemma lstrip_blank (s : string) : lstrip s = EmptyString <-> blank s = true.
Proof.
  induction s as [|c r IH]; simpl; [tauto|].
  destruct (isspace c); simpl; [exact IH|]. split; discriminate.
Qed.

Lemma rstrip_empty (s : string) : rstrip s = EmptyString <-> blank s = true.
Proof.
  induction s as [|c r IH]; simpl; [tauto|].
  destruct (rstrip r) as [|b r'] eqn:Hr.
  - destruct (isspace c); simpl.
    + split; [intros _; apply IH; reflexivity|reflexivity].
    + split; discriminate.
  - split; [discriminate|]. intros H. apply andb_true_iff in H as [_ H].
    apply IH in H. discriminate.
Qed.

Lemma lstrip_suffix_blank (s : string) :
  blank s = false -> blank (lstrip s) = false.
Proof.
  induction s as [|c r IH]; simpl; [discriminate|].
  destruct (isspace c) eqn:Hc; simpl; [exact IH|]. rewrite Hc. reflexivity.
Qed.

Lemma strip_empty_iff (s : string) : strip s = EmptyString <-> blank s = true.
Proof.
  unfold strip. rewrite rstrip_empty. split.
  - intros H. destruct (blank s) eqn:Hs; [reflexivity|].
    rewrite (lstrip_suffix_blank s Hs) in H. discriminate.
  - intros H. apply lstrip_blank in H. rewrite H. reflexivity.
Qed.

Lemma lstrip_split (s : string) :
  exists l, s = l +:+ lstrip s /\ blank l = true.
Proof.
  induction s as [|c r IH]; [exists EmptyString; split; reflexivity|].
  simpl. destruct (isspace c) eqn:Hc.
  - destruct IH as (l & Hl & Hb). exists (String c l). split.
    + change (String c r = String c (l +:+ lstrip r)). f_equal. exact Hl.
    + simpl. rewrite Hc. exact Hb.
  - exists EmptyString. split; reflexivity.
Qed.

Lemma rstrip_split (s : string) :
  exists r, s = rstrip s +:+ r /\ blank r = true.
Proof.
  induction s as [|c q IH]; [exists EmptyString; split; reflexivity|].
  destruct IH as (r & Hr & Hb). simpl.
  destruct (rstrip q) as [|b q'] eqn:Hq.
  - simpl in Hr. subst q. destruct (isspace c) eqn:Hc.
    + exists (String c r). split; [reflexivity|]. simpl. rewrite Hc. exact Hb.
    + exists r. split; [reflexivity|exact Hb].
  - exists r. split; [|exact Hb].
    change (String c q = String c (String b q' +:+ r)). f_equal. exact Hr.
Qed.

(** [strip] trims in the sense of [trim_of]. *)
Lemma strip_trim_of (s : string) : trim_of s (strip s).
Proof.
  destruct (lstrip_split s) as (l & Hl & Hbl).
  destruct (rstrip_split (lstrip s)) as (r & Hr & Hbr).
  exists l, r. destruct (strip_trimmed s) as [Hf Hla].
  split; [|repeat split; assumption].
  unfold strip. rewrite <- Hr. exact Hl.
Qed.

Lemma lstrip_app_blank (l x : string) :
  blank l = true -> lstrip (l +:+ x) = lstrip x.
Proof.
  induction l as [|c q IH]; intros Hb; [reflexivity|].
  simpl in Hb. apply andb_true_iff in Hb as [Hc Hb].
  change (lstrip (String c (q +:+ x)) = lstrip x). simpl. rewrite Hc. auto.
Qed.

Lemma rstrip_app_blank (t r : string) :
  blank r = true -> rstrip (t +:+ r) = rstrip t.
Proof.
  intros Hb. induction t as [|c q IH].
  - simpl. apply rstrip_empty. exact Hb.
  - change (rstrip (String c (q +:+ r)) = rstrip (String c q)).
    simpl. rewrite IH. reflexivity.
Qed.

Lemma rstrip_fixed (t : string) :
  (forall c, last_char t = Some c -> isspace c = false) -> rstrip t = t.
Proof.
  induction t as [|c q IH]; intros Hl; [reflexivity|].
  destruct q as [|b q'].
  - simpl. rewrite (Hl c eq_refl). reflexivity.
  - change (rstrip (String c (String b q'))) with
      (match rstrip (String b q') with
       | EmptyString => if isspace c then EmptyString else String c EmptyString
       | r' => String c r'
       end).
    rewrite IH; [reflexivity|]. intros a Ha. apply Hl. exact Ha.
Qed.

(** Trimming has one result, and [strip] computes it. *)
Lemma trim_of_strip (raw t : string) : trim_of raw t -> strip raw = t.
Proof.
  intros (l & r & -> & Hbl & Hbr & Hf & Hla).
  unfold strip. rewrite (lstrip_app_blank l _ Hbl).
  destruct t as [|c q].
  - change (EmptyString +:+ r) with r.
    apply lstrip_blank in Hbr. rewrite Hbr. reflexivity.
  - change (String c q +:+ r) with (String c (q +:+ r)).
    simpl lstrip. rewrite (Hf c eq_refl).
    change (String c (q +:+ r)) with (String c q +:+ r).
    rewrite (rstrip_app_blank _ r Hbr). apply rstrip_fixed. exact Hla.
Qed.

(** The extraction of the handler yields the trimmed input, and only it. *)
Lemma field_trimmed_input (data : pyval) (key t : string) :
  field data key = Ok t <-> trimmed_input data key t.
Proof.
  unfold field, py_get, trimmed_input. split.
  - destruct data as [| | | | |l|d|]; try discriminate.
    destruct (d !! key) as [v|] eqn:Hk; simpl.
    + destruct v; try discriminate. intros [= <-].
      exists d, s. split; [reflexivity|]. split; [left; exact Hk|].
      apply strip_trim_of.
    + intros [= <-]. exists d, EmptyString.
      split; [reflexivity|]. split; [right; split; [exact Hk|reflexivity]|].
      apply (strip_trim_of EmptyString).
  - intros (d & raw & -> & [Hk|[Hk ->]] & Ht); rewrite Hk; simpl;
      f_equal; apply trim_of_strip; exact Ht.
Qed.

(** ** Joining and returned cards *)

Lemma join_concat (l : list string) : join nl l = String.concat nl l.
Proof.
  induction l as [|p rest IH]; [reflexivity|].
  destruct rest as [|q rest]; [reflexivity|].
  change (join nl (p :: q :: rest)) with (p +:+ nl +:+ join nl (q :: rest)).
  rewrite IH. reflexivity.
Qed.

Lemma combined_notes_concat (f : card_fields) :
  combined_notes f =
  String.concat nl (labelled_lines (f_title f) (f_address f) (f_notes f)).
Proof.
  unfold combined_notes. rewrite notes_parts_labelled. apply join_concat.
Qed.

(** [dict(card)] is the full row. *)
Lemma row_dict_shows (r : row) : card_shows (row_dict r) r.
Proof.
  unfold row_dict, card_shows. eexists. split; [reflexivity|].
  split; [rewrite !dom_insert_L, dom_empty_L; set_solver|].
  destruct r as [i fn em ph cn ws nt d]. simpl.
  destruct fn, em, ph, cn, ws, nt; repeat split.
Qed.

Lemma card_shows_id (c : pyval) (r : row) :
  card_shows c r -> card_id_is c (row_id r).
Proof.
  intros (m & Hc & _ & Hid & _). exists m. split; assumption.
Qed.

(** ** Outcomes of a create *)

Lemma create_saved (e : env) (now : Z) (req : request) (w : world) (f : card_fields) :
  extract (request_data req) = Ok f ->
  has_key_field f = true ->
  healthy e = true ->
  process_business_card e now req w =
    ({| status := 200; body := success_body (next_id w) (echo f) |}, saved now f w).
Proof.
  intros Hx Hk He. rewrite process_business_card_extract, Hx, Hk. simpl.
  destruct e as [[url|] [c|] [x|] [m|]]; try discriminate He.
  unfold healthy in He; simpl in He.
  unfold try_except, bind, get_db_connection, execute_insert, assign_id, commit,
    cursor, cursor_close, close, tell, ret, emit, saved, new_row; simpl.
  rewrite He; simpl. rewrite <- !app_assoc. reflexivity.
Qed.

(** Every create either saves the card or leaves the table alone and hands
    out no id. *)
Lemma create_outcome (e : env) (now : Z) (req : request) (w : world) :
  (exists f, extract (request_data req) = Ok f /\ has_key_field f = true /\
             healthy e = true /\
             process_business_card e now req w =
               ({| status := 200; body := success_body (next_id w) (echo f) |},
                saved now f w))
  \/ (status (fst (process_business_card e now req w)) <> 200 /\
      response_id (fst (process_business_card e now req w)) = None /\
      table (snd (process_business_card e now req w)) = table w /\
      next_id w <= next_id (snd (process_business_card e now req w))).
Proof.
  destruct (extract (request_data req)) as [f|msg] eqn:Hx.
  - destruct (has_key_field f) eqn:Hk.
    + destruct (healthy e) eqn:He.
      * left. exists f. auto using create_saved.
      * right. rewrite process_business_card_extract, Hx, Hk. simpl.
        destruct e as [[url|] [c|] [x|] [m|]]; unfold healthy in He; simpl in He;
          unfold try_except, bind, get_db_connection, execute_insert, assign_id,
            commit, cursor, cursor_close, close, tell, ret, raise, emit; simpl;
          try destruct (truthy url); try discriminate He; simpl;
          (split; [discriminate | split; [reflexivity | split; [reflexivity | lia]]]).
    + right. rewrite process_business_card_extract, Hx, Hk. simpl.
      split; [discriminate | split; [reflexivity | split; [reflexivity | lia]]].
  - right. rewrite process_business_card_extract, Hx. simpl.
    split; [discriminate | split; [reflexivity | split; [reflexivity | lia]]].
Qed.

(** ** Validation (C1) *)

Lemma extract_fields (data : pyval)
    (name email phone company website title address additional_notes : string) :
  field data "name" = Ok name -> field data "email" = Ok email ->
  field data "phone" = Ok phone -> field data "company" = Ok company ->
  field data "website" = Ok website -> field data "title" = Ok title ->
  field data "address" = Ok address -> field data "notes" = Ok additional_notes ->
  extract data =
    Ok (Fields name email phone company website title address additional_notes).
Proof.
  intros H1 H2 H3 H4 H5 H6 H7 H8. unfold extract.
  rewrite H1, H2, H3, H4, H5, H6, H7, H8. reflexivity.
Qed.

Lemma extract_inv (data : pyval) (f : card_fields) :
  extract data = Ok f ->
  field data "name" = Ok (f_name f) /\ field data "email" = Ok (f_email f) /\
  field data "phone" = Ok (f_phone f) /\ field data "company" = Ok (f_company f) /\
  field data "website" = Ok (f_website f) /\ field data "title" = Ok (f_title f) /\
  field data "address" = Ok (f_address f) /\ field data "notes" = Ok (f_notes f).
Proof.
  unfold extract.
  destruct (field data "name"); [|discriminate].
  destruct (field data "email"); [|discriminate].
  destruct (field data "phone"); [|discriminate].
  destruct (field data "company"); [|discriminate].
  destruct (field data "website"); [|discriminate].
  destruct (field data "title"); [|discriminate].
  destruct (field data "address"); [|discriminate].
  destruct (field data "notes"); [|discriminate].
  intros [= <-]. simpl. repeat split.
Qed.

(** C1, as stated, fails: with [name], [email], [phone] and [company] all
    empty after trimming, a body that binds [website] to the number 5 is
    answered with a 500, not with the 400 validation error. *)
Lemma C1_blank_keys_not_always_400 :
  ~ (forall (e : env) (now : Z) (req : request) (w : world),
       field (request_data req) "name" = Ok EmptyString ->
       field (request_data req) "email" = Ok EmptyString ->
       field (request_data req) "phone" = Ok EmptyString ->
       field (request_data req) "company" = Ok EmptyString ->
       process_business_card e now req w =
         ({| status := 400;
             body := PDict {[ "error" :=
               PStr "At least one of name, email, phone, or company is required" ]} |},
          w)).
Proof.
  intros H.
  specialize (H up 0 numeric_website empty_world
                (eq_refl _) (eq_refl _) (eq_refl _) (eq_refl _)).
  apply (f_equal (fun p => status (fst p))) in H.
  vm_compute in H. discriminate H.
Qed.

(** C1, amended: when each of the eight fields is absent or a string, and
    [name], [email], [phone] and [company] are all empty after trimming, the
    create answers 400 with exactly
    [{error: "At least one of name, email, phone, or company is required"}]
    and leaves the store as it was: no row is added, no id is drawn and no
    connection is opened. *)
Theorem C1_blank_keys_rejected (e : env) (now : Z) (req : request) (w : world)
    (website title address additional_notes : string) :
  field (request_data req) "name" = Ok EmptyString ->
  field (request_data req) "email" = Ok EmptyString ->
  field (request_data req) "phone" = Ok EmptyString ->
  field (request_data req) "company" = Ok EmptyString ->
  field (request_data req) "website" = Ok website ->
  field (request_data req) "title" = Ok title ->
  field (request_data req) "address" = Ok address ->
  field (request_data req) "notes" = Ok additional_notes ->
  process_business_card e now req w =
    ({| status := 400;
        body := PDict {[ "error" :=
          PStr "At least one of name, email, phone, or company is required" ]} |},
     w).
Proof.
  intros H1 H2 H3 H4 H5 H6 H7 H8.
  rewrite process_business_card_extract.
  rewrite (extract_fields _ _ _ _ _ _ _ _ _ H1 H2 H3 H4 H5 H6 H7 H8).
  reflexivity.
Qed.

Lemma C1_blank_keys_rejected_witness :
  process_business_card insert_fails 7
      (FormBody (<["name" := "   "]> (<["notes" := " hello "]> ∅))) empty_world =
    ({| status := 400;
        body := PDict {[ "error" :=
          PStr "At least one of name, email, phone, or company is required" ]} |},
     empty_world).
Proof.
  apply (C1_blank_keys_rejected insert_fails 7 _ empty_world
           EmptyString EmptyString EmptyString "hello"); reflexivity.
Defined.

(** ** Reads *)

Lemma get_card_readable (e : env) (card_id : Z) (w : world) :
  can_read e = true ->
  get_card e card_id w =
    (match fetchone (filter (fun r => row_id r = card_id) (table w)) with
     | None => not_found
     | Some c => {| status := 200; body := PDict (<["card" := row_dict c]> ∅) |}
     end, after_read w).
Proof.
  intros He. destruct e as [[url|] [c|] [x|] m]; try discriminate He.
  unfold can_read in He; simpl in He.
  unfold get_card, try_except, bind, get_db_connection, execute_select_by_id,
    cursor, cursor_close, close, tell, ret, emit, after_read; simpl.
  rewrite He; simpl.
  destruct (fetchone _); simpl; rewrite <- !app_assoc; reflexivity.
Qed.

Lemma get_card_unreadable (e : env) (card_id : Z) (w : world) :
  can_read e = false ->
  exists msg,
    fst (get_card e card_id w) =
      {| status := 500; body := error_body ("Failed to fetch card: " +:+ msg) |}
    /\ table (snd (get_card e card_id w)) = table w
    /\ next_id (snd (get_card e card_id w)) = next_id w.
Proof.
  intros He. destruct e as [[url|] [c|] [x|] m]; unfold can_read in He; simpl in He;
    unfold get_card, try_except, bind, get_db_connection, execute_select_by_id,
      cursor, cursor_close, close, tell, ret, raise, emit; simpl;
    try destruct (truthy url); try discriminate He; simpl; eauto.
Qed.

Lemma get_card_unreadable_any (e : env) (card_id : Z) (w w' : world) :
  can_read e = false ->
  fst (get_card e card_id w') = fst (get_card e card_id w).
Proof.
  intros He. destruct e as [[url|] [c|] [x|] m]; unfold can_read in He; simpl in He;
    unfold get_card, try_except, bind, get_db_connection, execute_select_by_id,
      cursor, cursor_close, close, tell, ret, raise, emit; simpl;
    try destruct (truthy url); try discriminate He; reflexivity.
Qed.

Lemma get_cards_readable (e : env) (w : world) :
  can_read e = true ->
  get_cards e w =
    ({| status := 200;
        body := PDict
          (<["cards" := PList (row_dict <$> merge_sort dt_desc (table w))]>
          (<["count" :=
               PInt (Z.of_nat (length (merge_sort dt_desc (table w))))]> ∅)) |},
     after_read w).
Proof.
  intros He. destruct e as [[url|] [c|] [x|] m]; try discriminate He.
  unfold can_read in He; simpl in He.
  unfold get_cards, try_except, bind, get_db_connection, execute_select_all,
    cursor, cursor_close, close, tell, ret, emit, after_read, fetchall; simpl.
  rewrite He; simpl. rewrite <- !app_assoc. reflexivity.
Qed.

(** Selecting by a fresh id after appending its row finds that row alone. *)
Lemma filter_fresh_id (rows : list row) (r : row) :
  Forall (fun r' => row_id r' < row_id r) rows ->
  filter (fun r' => row_id r' = row_id r) (rows ++ [r]) = [r].
Proof.
  intros Hlt. rewrite filter_app.
  replace (filter (fun r' => row_id r' = row_id r) rows) with (@nil row).
  - simpl. rewrite filter_cons_True by reflexivity. reflexivity.
  - symmetry. induction Hlt as [|r' rows Hr' _ IH]; [reflexivity|].
    rewrite filter_cons_False by lia. exact IH.
Qed.

Lemma filter_absent_id (rows : list row) (card_id : Z) :
  (forall r, r ∈ rows -> row_id r <> card_id) ->
  filter (fun r => row_id r = card_id) rows = [].
Proof.
  intros H. induction rows as [|a rows IH]; [reflexivity|].
  rewrite filter_cons_False.
  - apply IH. intros r Hr. apply H. right. exact Hr.
  - apply H. left.
Qed.

(** With unique ids, selecting by the id of a stored row finds that row. *)
Lemma filter_unique_id (rows : list row) (r : row) :
  NoDup (row_id <$> rows) -> r ∈ rows ->
  filter (fun r' => row_id r' = row_id r) rows = [r].
Proof.
  induction rows as [|a rows IH]; intros Hnd Hin.
  - inversion Hin.
  - rewrite fmap_cons in Hnd. apply NoDup_cons in Hnd as [Ha Hnd].
    apply elem_of_cons in Hin as [->|Hin].
    + rewrite filter_cons_True by reflexivity. f_equal.
      apply filter_absent_id. intros b Hb Heq.
      apply Ha. rewrite <- Heq. apply list_elem_of_fmap. eauto.
    + rewrite filter_cons_False; [auto|].
      intros Heq. apply Ha. rewrite Heq. apply list_elem_of_fmap. eauto.
Qed.


(** ** Create, then read back (C2, C4, C10) *)

Lemma key_field_present (name email phone company : string) f :
  name <> EmptyString \/ email <> EmptyString \/
  phone <> EmptyString \/ company <> EmptyString ->
  f_name f = name -> f_email f = email -> f_phone f = phone ->
  f_company f = company ->
  has_key_field f = true.
Proof.
  unfold has_key_field. intros H -> -> -> ->.
  rewrite !orb_true_iff, !truthy_spec. tauto.
Qed.

(** C2: a create whose body binds the eight fields to strings (or leaves
    them out), at least one of name, email, phone and company being
    non-empty after trimming, and which the store lets through, returns an
    id [i]; a get-by-id of [i] that reaches the store then answers with the
    card of id [i] whose [full_name], [email], [phone], [company_name] and
    [website] are the trimmed inputs [t_name] .. [t_website] and whose
    [notes] is the newline-joined list of the lines ["Title: " t_title],
    ["Address: " t_address], ["Notes: " t_notes], in that order, one for
    each sub-field that is non-empty after trimming. *)
Theorem C2_create_then_get (e e' : env) (now : Z) (req : request) (w : world)
    (t_name t_email t_phone t_company t_website t_title t_address t_notes : string) :
  ids_below w ->
  trimmed_input (request_data req) "name" t_name ->
  trimmed_input (request_data req) "email" t_email ->
  trimmed_input (request_data req) "phone" t_phone ->
  trimmed_input (request_data req) "company" t_company ->
  trimmed_input (request_data req) "website" t_website ->
  trimmed_input (request_data req) "title" t_title ->
  trimmed_input (request_data req) "address" t_address ->
  trimmed_input (request_data req) "notes" t_notes ->
  t_name <> EmptyString \/ t_email <> EmptyString \/
    t_phone <> EmptyString \/ t_company <> EmptyString ->
  healthy e = true ->
  can_read e' = true ->
  exists (i : Z) (card : gmap string pyval),
    status (fst (process_business_card e now req w)) = 200 /\
    response_id (fst (process_business_card e now req w)) = Some i /\
    fst (get_card e' i (snd (process_business_card e now req w))) =
      {| status := 200; body := PDict {[ "card" := PDict card ]} |} /\
    card !! "id" = Some (PInt i) /\
    card !! "full_name" = Some (PStr t_name) /\
    card !! "email" = Some (PStr t_email) /\
    card !! "phone" = Some (PStr t_phone) /\
    card !! "company_name" = Some (PStr t_company) /\
    card !! "website" = Some (PStr t_website) /\
    card !! "notes" =
      Some (PStr (String.concat nl (labelled_lines t_title t_address t_notes))).
Proof.
  intros Hw H1 H2 H3 H4 H5 H6 H7 H8 Hkey He He'.
  apply field_trimmed_input in H1, H2, H3, H4, H5, H6, H7, H8.
  pose (f := Fields t_name t_email t_phone t_company t_website t_title
                    t_address t_notes).
  assert (Hx : extract (request_data req) = Ok f)
    by (apply extract_fields; assumption).
  assert (Hk : has_key_field f = true)
    by (eapply key_field_present; eauto).
  rewrite (create_saved e now req w f Hx Hk He).
  destruct (row_dict_shows (new_row (next_id w) now f))
    as (m & Hm & _ & Mid & Mfn & Mem & Mph & Mcn & Mws & Mnt & _).
  exists (next_id w), m. cbn [fst snd].
  split; [reflexivity|]. split; [reflexivity|].
  split.
  - rewrite (get_card_readable e' _ _ He'). simpl.
    change (next_id w) with (row_id (new_row (next_id w) now f)) at 1.
    rewrite filter_fresh_id by exact Hw. simpl.
    change (row_dict (new_row (next_id w) now f) = PDict m) in Hm.
    rewrite <- Hm. reflexivity.
  - simpl in Mid, Mfn, Mem, Mph, Mcn, Mws, Mnt.
    rewrite (combined_notes_concat f) in Mnt.
    repeat split; assumption.
Qed.

Lemma trim_of_witness (l t r : string) :
  blank l = true -> blank r = true ->
  negb (from_option isspace false (first_char t)) = true ->
  negb (from_option isspace false (last_char t)) = true ->
  trim_of (l +:+ t +:+ r) t.
Proof.
  intros Hl Hr Hf Hla. exists l, r. split; [reflexivity|].
  split; [exact Hl|]. split; [exact Hr|].
  split; intros c Hc; [rewrite Hc in Hf|rewrite Hc in Hla];
    simpl in *; destruct (isspace c); [discriminate|reflexivity|discriminate|reflexivity].
Qed.

Lemma C2_create_then_get_witness :
  exists (i : Z) (card : gmap string pyval),
    status (fst (process_business_card up 100 padded_card empty_world)) = 200 /\
    response_id (fst (process_business_card up 100 padded_card empty_world)) =
      Some i /\
    fst (get_card up i (snd (process_business_card up 100 padded_card empty_world))) =
      {| status := 200; body := PDict {[ "card" := PDict card ]} |} /\
    card !! "id" = Some (PInt i) /\
    card !! "full_name" = Some (PStr "John Doe") /\
    card !! "email" = Some (PStr "john@techcorp.com") /\
    card !! "phone" = Some (PStr "5551234567") /\
    card !! "company_name" = Some (PStr "Tech Corp") /\
    card !! "website" = Some (PStr "techcorp.com") /\
    card !! "notes" =
      Some (PStr ("Title: Software Engineer" +:+ nl +:+
                  "Address: 123 Main St, City, State" +:+ nl +:+
                  "Notes: Met at tech conference 2024")).
Proof.
  apply (C2_create_then_get up up 100 padded_card empty_world
           "John Doe" "john@techcorp.com" "5551234567" "Tech Corp"
           "techcorp.com" "Software Engineer" "123 Main St, City, State"
           "Met at tech conference 2024").
  - constructor.
  - eexists _, "  John Doe ". split; [reflexivity|]. split; [left; reflexivity|].
    apply (trim_of_witness "  " "John Doe" " "); reflexivity.
  - eexists _, " john@techcorp.com". split; [reflexivity|].
    split; [left; reflexivity|].
    apply (trim_of_witness " " "john@techcorp.com" EmptyString); reflexivity.
  - eexists _, "5551234567  ". split; [reflexivity|].
    split; [left; reflexivity|].
    apply (trim_of_witness EmptyString "5551234567" "  "); reflexivity.
  - eexists _, " Tech Corp ". split; [reflexivity|].
    split; [left; reflexivity|].
    apply (trim_of_witness " " "Tech Corp" " "); reflexivity.
  - eexists _, "techcorp.com ". split; [reflexivity|].
    split; [left; reflexivity|].
    apply (trim_of_witness EmptyString "techcorp.com" " "); reflexivity.
  - eexists _, "  Software Engineer". split; [reflexivity|].
    split; [left; reflexivity|].
    apply (trim_of_witness "  " "Software Engineer" EmptyString); reflexivity.
  - eexists _, " 123 Main St, City, State ". split; [reflexivity|].
    split; [left; reflexivity|].
    apply (trim_of_witness " " "123 Main St, City, State" " "); reflexivity.
  - eexists _, "  Met at tech conference 2024  ". split; [reflexivity|].
    split; [left; reflexivity|].
    apply (trim_of_witness "  " "Met at tech conference 2024" "  "); reflexivity.
  - left. discriminate.
  - reflexivity.
  - reflexivity.
Defined.

Lemma create_200_inv (e : env) (now : Z) (req : request) (w : world) :
  status (fst (process_business_card e now req w)) = 200 ->
  exists f, extract (request_data req) = Ok f /\ has_key_field f = true /\
            healthy e = true /\
            process_business_card e now req w =
              ({| status := 200; body := success_body (next_id w) (echo f) |},
               saved now f w).
Proof.
  intros H200. destruct (create_outcome e now req w) as [Hs|[Hne _]].
  - exact Hs.
  - contradiction.
Qed.

(** C4: the body of every 200 answer of the create holds [message], the id
    just drawn for the new row, and a [data] object whose keys are exactly
    [name], [email], [phone], [company], [website], [title], [address],
    [notes], each bound to the request field with its leading and trailing
    whitespace removed; [data.notes] is the trimmed [notes] sub-field, while
    the stored row carries the combined notes. *)
Theorem C4_success_echo (e : env) (now : Z) (req : request) (w : world) :
  status (fst (process_business_card e now req w)) = 200 ->
  exists (f : card_fields) (top d : gmap string pyval) (r : row),
    (trimmed_input (request_data req) "name" (f_name f) /\
     trimmed_input (request_data req) "email" (f_email f) /\
     trimmed_input (request_data req) "phone" (f_phone f) /\
     trimmed_input (request_data req) "company" (f_company f) /\
     trimmed_input (request_data req) "website" (f_website f) /\
     trimmed_input (request_data req) "title" (f_title f) /\
     trimmed_input (request_data req) "address" (f_address f) /\
     trimmed_input (request_data req) "notes" (f_notes f)) /\
    body (fst (process_business_card e now req w)) = PDict top /\
    dom top = {[ "message"; "id"; "data" ]} /\
    top !! "message" = Some (PStr "Business card saved successfully") /\
    top !! "id" = Some (PInt (row_id r)) /\
    top !! "data" = Some (PDict d) /\
    dom d = {[ "name"; "email"; "phone"; "company";
               "website"; "title"; "address"; "notes" ]} /\
    (d !! "name" = Some (PStr (f_name f)) /\
     d !! "email" = Some (PStr (f_email f)) /\
     d !! "phone" = Some (PStr (f_phone f)) /\
     d !! "company" = Some (PStr (f_company f)) /\
     d !! "website" = Some (PStr (f_website f)) /\
     d !! "title" = Some (PStr (f_title f)) /\
     d !! "address" = Some (PStr (f_address f)) /\
     d !! "notes" = Some (PStr (f_notes f))) /\
    table (snd (process_business_card e now req w)) = table w ++ [r] /\
    notes r =
      Some (String.concat nl
              (labelled_lines (f_title f) (f_address f) (f_notes f))).
Proof.
  intros H200.
  destruct (create_200_inv e now req w H200) as (f & Hx & Hk & He & ->).
  exists f. eexists. eexists. exists (new_row (next_id w) now f).
  split.
  { destruct (extract_inv _ _ Hx) as (F1 & F2 & F3 & F4 & F5 & F6 & F7 & F8).
    rewrite <- !field_trimmed_input. repeat split; assumption. }
  simpl. split; [reflexivity|].
  split; [rewrite !dom_insert_L, dom_empty_L; set_solver|].
  split; [reflexivity|]. split; [reflexivity|]. split; [reflexivity|].
  split; [rewrite !dom_insert_L, dom_empty_L; set_solver|].
  split; [repeat split|].
  split; [reflexivity|].
  rewrite (combined_notes_concat f). reflexivity.
Qed.

Lemma C4_success_echo_witness :
  status (fst (process_business_card up 100 padded_card empty_world)) = 200 /\
  exists (top d : gmap string pyval) (r : row),
    body (fst (process_business_card up 100 padded_card empty_world)) = PDict top /\
    top !! "data" = Some (PDict d) /\
    d !! "name" = Some (PStr "John Doe") /\
    d !! "title" = Some (PStr "Software Engineer") /\
    d !! "address" = Some (PStr "123 Main St, City, State") /\
    d !! "notes" = Some (PStr "Met at tech conference 2024") /\
    table (snd (process_business_card up 100 padded_card empty_world)) = [r] /\
    notes r =
      Some ("Title: Software Engineer" +:+ nl +:+
            "Address: 123 Main St, City, State" +:+ nl +:+
            "Notes: Met at tech conference 2024").
Proof.
  split; [reflexivity|].
  destruct (C4_success_echo up 100 padded_card empty_world eq_refl)
    as (f & top & d & r & Hf & Hb & _ & _ & _ & Hd & _ & Hl & Ht & Hn).
  destruct Hf as (H1 & _ & _ & _ & _ & H6 & H7 & H8).
  destruct Hl as (Hl1 & _ & _ & _ & _ & Hl6 & Hl7 & Hl8).
  exists top, d, r.
  split; [exact Hb|]. split; [exact Hd|].
  apply field_trimmed_input in H1, H6, H7, H8.
  assert (E1 : f_name f = "John Doe").
  { change (field (request_data padded_card) "name")
      with (@Ok string "John Doe") in H1. congruence. }
  assert (E6 : f_title f = "Software Engineer").
  { change (field (request_data padded_card) "title")
      with (@Ok string "Software Engineer") in H6. congruence. }
  assert (E7 : f_address f = "123 Main St, City, State").
  { change (field (request_data padded_card) "address")
      with (@Ok string "123 Main St, City, State") in H7. congruence. }
  assert (E8 : f_notes f = "Met at tech conference 2024").
  { change (field (request_data padded_card) "notes")
      with (@Ok string "Met at tech conference 2024") in H8. congruence. }
  rewrite E1 in Hl1. rewrite E6 in Hl6. rewrite E7 in Hl7. rewrite E8 in Hl8.
  rewrite E6, E7, E8 in Hn.
  split; [exact Hl1|]. split; [exact Hl6|]. split; [exact Hl7|].
  split; [exact Hl8|]. split; [exact Ht|]. exact Hn.
Defined.

(** C10: a create that passes validation with [title], [address] and
    [notes] all empty after trimming, and which the store lets through,
    writes a row whose notes column is the empty string; all six text
    columns are supplied, none is left NULL. *)
Theorem C10_empty_notes_column (e : env) (now : Z) (req : request) (w : world)
    (t_name t_email t_phone t_company t_website : string) :
  field (request_data req) "name" = Ok t_name ->
  field (request_data req) "email" = Ok t_email ->
  field (request_data req) "phone" = Ok t_phone ->
  field (request_data req) "company" = Ok t_company ->
  field (request_data req) "website" = Ok t_website ->
  field (request_data req) "title" = Ok EmptyString ->
  field (request_data req) "address" = Ok EmptyString ->
  field (request_data req) "notes" = Ok EmptyString ->
  t_name <> EmptyString \/ t_email <> EmptyString \/
    t_phone <> EmptyString \/ t_company <> EmptyString ->
  healthy e = true ->
  exists r : row,
    table (snd (process_business_card e now req w)) = table w ++ [r] /\
    notes r = Some EmptyString /\
    full_name r = Some t_name /\ email r = Some t_email /\
    phone r = Some t_phone /\ company_name r = Some t_company /\
    website r = Some t_website.
Proof.
  intros H1 H2 H3 H4 H5 H6 H7 H8 Hkey He.
  pose (f := Fields t_name t_email t_phone t_company t_website
                    EmptyString EmptyString EmptyString).
  assert (Hx : extract (request_data req) = Ok f)
    by (apply extract_fields; assumption).
  assert (Hk : has_key_field f = true)
    by (eapply key_field_present; eauto).
  rewrite (create_saved e now req w f Hx Hk He).
  exists (new_row (next_id w) now f). simpl. repeat split.
Qed.

Lemma C10_empty_notes_column_witness :
  exists r : row,
    table (snd (process_business_card up 5 name_only empty_world)) = [] ++ [r] /\
    notes r = Some EmptyString /\
    full_name r = Some "Ada Lovelace" /\ email r = Some EmptyString /\
    phone r = Some EmptyString /\ company_name r = Some EmptyString /\
    website r = Some EmptyString.
Proof.
  apply (C10_empty_notes_column up 5 name_only empty_world
           "Ada Lovelace" EmptyString EmptyString EmptyString EmptyString);
    try reflexivity.
  left. discriminate.
Defined.

(** ** Ill-typed fields (C9) *)

Lemma field_non_string (d : gmap string pyval) (k : string) (v : pyval) :
  d !! k = Some v -> (forall s, v <> PStr s) ->
  field (PDict d) k = Raise (no_attribute v "strip").
Proof.
  intros Hk Hv. unfold field, py_get. rewrite Hk. simpl.
  destruct v; try reflexivity. exfalso. eapply Hv. reflexivity.
Qed.

Lemma extract_raises (data : pyval) (k : string) (m : string) :
  k ∈ ["name"; "email"; "phone"; "company";
       "website"; "title"; "address"; "notes"] ->
  field data k = Raise m ->
  exists msg, extract data = Raise msg.
Proof.
  intros Hk Hf. unfold extract.
  repeat (apply elem_of_cons in Hk as [->|Hk]); [..|inversion Hk];
    repeat match goal with
           | |- context [match field ?d ?key with _ => _ end] =>
               destruct (field d key) eqn:?
           end;
    try (eexists; reflexivity); congruence.
Qed.

(** C9: when the decoded body binds one of the eight fields to a value that
    is not a string, the create answers 500 with a message that begins with
    ["Save failed: "], not the 400 validation error, and the store is left
    as it was. *)
Theorem C9_non_string_field (e : env) (now : Z) (req : request) (w : world)
    (d : gmap string pyval) (k : string) (v : pyval) :
  request_data req = PDict d ->
  k ∈ ["name"; "email"; "phone"; "company";
       "website"; "title"; "address"; "notes"] ->
  d !! k = Some v ->
  (forall s, v <> PStr s) ->
  exists msg,
    process_business_card e now req w =
      ({| status := 500;
          body := PDict {[ "error" := PStr ("Save failed: " +:+ msg) ]} |}, w).
Proof.
  intros Hd Hk Hv Hns.
  rewrite process_business_card_extract, Hd.
  destruct (extract_raises (PDict d) k _ Hk (field_non_string d k v Hv Hns))
    as [msg ->].
  exists msg. reflexivity.
Qed.

Lemma C9_non_string_field_witness :
  exists msg,
    process_business_card up 0 numeric_website empty_world =
      ({| status := 500;
          body := PDict {[ "error" := PStr ("Save failed: " +:+ msg) ]} |},
       empty_world).
Proof.
  apply (C9_non_string_field up 0 numeric_website empty_world
           (<["website" := PInt 5]> ∅) "website" (PInt 5)).
  - reflexivity.
  - repeat constructor.
  - reflexivity.
  - discriminate.
Defined.

(** ** Get by id (C7, C8) *)

(** C7: for every integer id, a get-by-id that reaches the store answers 200
    with the full stored row of that id when there is one (a JSON object
    with exactly the eight columns [id], [full_name], [email], [phone],
    [company_name], [website], [notes], [dt] and the values the row holds),
    and 404 with [{error: "Card not found"}] when there is none; a get-by-id
    that cannot reach the store answers 500, which is not the 404 answer. *)
Theorem C7_get_card_outcomes (e : env) (card_id : Z) (w : world) :
  (can_read e = true ->
     (forall r, NoDup (row_id <$> table w) -> r ∈ table w ->
                row_id r = card_id ->
        exists c : pyval,
          fst (get_card e card_id w) =
            {| status := 200; body := PDict {[ "card" := c ]} |} /\
          card_shows c r) /\
     ((forall r, r ∈ table w -> row_id r <> card_id) ->
        fst (get_card e card_id w) =
          {| status := 404;
             body := PDict {[ "error" := PStr "Card not found" ]} |})) /\
  (can_read e = false ->
     exists msg,
       fst (get_card e card_id w) =
         {| status := 500;
            body := PDict {[ "error" :=
              PStr ("Failed to fetch card: " +:+ msg) ]} |} /\
       status (fst (get_card e card_id w)) <> 404).
Proof.
  split.
  - intros He. rewrite (get_card_readable e card_id w He). simpl. split.
    + intros r Hnd Hin <-. rewrite (filter_unique_id _ _ Hnd Hin).
      exists (row_dict r). split; [reflexivity|apply row_dict_shows].
    + intros Hnone. rewrite (filter_absent_id _ _ Hnone). reflexivity.
  - intros He. destruct (get_card_unreadable e card_id w He) as (msg & Hr & _).
    exists msg. rewrite Hr. split; [reflexivity|discriminate].
Qed.

(** A stored card, an absent id, and an unreachable store. *)
Lemma C7_get_card_outcomes_witness :
  (exists m : gmap string pyval,
     fst (get_card up 1 (saved 100 john_doe_fields empty_world)) =
       {| status := 200; body := PDict {[ "card" := PDict m ]} |} /\
     m !! "id" = Some (PInt 1) /\
     m !! "full_name" = Some (PStr "John Doe") /\
     m !! "email" = Some (PStr "john@techcorp.com") /\
     m !! "phone" = Some (PStr "5551234567") /\
     m !! "company_name" = Some (PStr "Tech Corp") /\
     m !! "website" = Some (PStr "techcorp.com") /\
     m !! "notes" =
       Some (PStr ("Title: Software Engineer" +:+ nl +:+
                   "Address: 123 Main St, City, State" +:+ nl +:+
                   "Notes: Met at tech conference 2024")) /\
     m !! "dt" = Some (PDatetime 100))
  /\ fst (get_card up 999999 (saved 100 john_doe_fields empty_world)) =
       {| status := 404; body := PDict {[ "error" := PStr "Card not found" ]} |}
  /\ exists msg,
       fst (get_card unreachable 1 (saved 100 john_doe_fields empty_world)) =
         {| status := 500;
            body := PDict {[ "error" :=
              PStr ("Failed to fetch card: " +:+ msg) ]} |} /\
       status (fst (get_card unreachable 1
                      (saved 100 john_doe_fields empty_world))) <> 404.
Proof.
  split; [|split].
  - destruct (proj1 (proj1 (C7_get_card_outcomes up 1
                              (saved 100 john_doe_fields empty_world)) eq_refl)
                (new_row 1 100 john_doe_fields))
      as (c & Hc & m & -> & _ & Mid & Mfn & Mem & Mph & Mcn & Mws & Mnt & Mdt).
    + simpl. repeat constructor. intros H. inversion H.
    + simpl. left.
    + reflexivity.
    + exists m. split; [exact Hc|].
      repeat split; assumption.
  - apply (proj1 (C7_get_card_outcomes up 999999
                    (saved 100 john_doe_fields empty_world)) eq_refl).
    intros r Hr. simpl in Hr. apply list_elem_of_singleton in Hr. subst r.
    simpl. discriminate.
  - apply (proj2 (C7_get_card_outcomes unreachable 1
                    (saved 100 john_doe_fields empty_world)) eq_refl).
Defined.

(** C8: a get-by-id leaves the stored table (and the id sequence) as it found
    them, whatever its outcome; a second get-by-id of the same id returns
    what the first one returned, both under the same environment and
    whenever both reach the store. *)
Theorem C8_get_card_read_only (e1 e2 : env) (card_id : Z) (w : world) :
  table (snd (get_card e1 card_id w)) = table w /\
  next_id (snd (get_card e1 card_id w)) = next_id w /\
  fst (get_card e1 card_id (snd (get_card e1 card_id w))) =
    fst (get_card e1 card_id w) /\
  (can_read e1 = true -> can_read e2 = true ->
   fst (get_card e2 card_id (snd (get_card e1 card_id w))) =
     fst (get_card e1 card_id w)).
Proof.
  destruct (can_read e1) eqn:H1.
  - rewrite !(get_card_readable e1 card_id _ H1). simpl.
    split; [reflexivity|]. split; [reflexivity|]. split; [reflexivity|].
    intros _ H2. rewrite (get_card_readable e2 card_id _ H2). reflexivity.
  - destruct (get_card_unreadable e1 card_id w H1) as (msg & _ & Ht & Hn).
    split; [exact Ht|]. split; [exact Hn|].
    split; [apply get_card_unreadable_any; exact H1|discriminate].
Qed.

Lemma C8_get_card_read_only_witness :
  fst (get_card up 1
         (snd (get_card up 1 (saved 100 john_doe_fields empty_world)))) =
    fst (get_card up 1 (saved 100 john_doe_fields empty_world)).
Proof.
  apply (proj2 (proj2 (proj2 (C8_get_card_read_only up up 1
                                (saved 100 john_doe_fields empty_world)))));
    reflexivity.
Defined.

(** ** Listing (C6) *)

#[global] Instance dt_desc_total : Total dt_desc.
Proof. intros a b. unfold dt_desc. lia. Qed.

#[global] Instance dt_desc_trans : Transitive dt_desc.
Proof. intros a b c. unfold dt_desc. lia. Qed.

(** In a list sorted by [dt] descending, a row with a strictly later [dt]
    stands before a row with an earlier one. *)
Lemma sorted_later_first (rows : list row) (a b : row) :
  StronglySorted dt_desc rows -> a ∈ rows -> b ∈ rows -> dt b < dt a ->
  exists l1 l2 l3, rows = l1 ++ a :: l2 ++ b :: l3.
Proof.
  intros Hs Ha Hb Hlt.
  apply list_elem_of_split in Ha as (l1 & l2 & ->).
  apply StronglySorted_app in Hs as (Hcross & _ & Hs2).
  apply elem_of_app in Hb as [Hb|Hb].
  - exfalso. specialize (Hcross b a Hb ltac:(left)).
    unfold dt_desc in Hcross. lia.
  - apply elem_of_cons in Hb as [->|Hb]; [lia|].
    apply list_elem_of_split in Hb as (l3 & l4 & ->).
    exists l1, l3, l4. reflexivity.
Qed.

Lemma row_dicts_show (rows : list row) :
  Forall2 card_shows (row_dict <$> rows) rows.
Proof.
  induction rows as [|r rows IH]; [constructor|].
  rewrite fmap_cons. constructor; [apply row_dict_shows|exact IH].
Qed.

(** C6, as stated, fails in its ordering part: the list orders by [dt], not
    by creation, so when the store stamps the second of two cards created
    in sequence with an earlier [dt] than the first, the later-created card
    is listed after the earlier one. *)
Lemma C6_later_card_not_always_first :
  ~ (forall (e1 e2 e : env) (now1 now2 : Z) (req1 req2 : request) (w0 : world)
            (i1 i2 : Z),
       response_id (fst (process_business_card e1 now1 req1 w0)) = Some i1 ->
       response_id (fst (process_business_card e2 now2 req2
                           (snd (process_business_card e1 now1 req1 w0)))) =
         Some i2 ->
       can_read e = true ->
       exists (m : gmap string pyval) (cards : list pyval),
         body (fst (get_cards e
                      (snd (process_business_card e2 now2 req2
                              (snd (process_business_card e1 now1 req1 w0))))))
           = PDict m /\
         m !! "cards" = Some (PList cards) /\
         listed_before cards i2 i1).
Proof.
  intros H.
  destruct (H up up up 200 100 john_doe name_only empty_world 1 2
              eq_refl eq_refl eq_refl)
    as (m & cards & Hb & Hc & l1 & l2 & l3 & ci & cj & Hl & Hi & Hj).
  vm_compute in Hb. injection Hb as <-.
  vm_compute in Hc. injection Hc as <-.
  destruct l1 as [|x [|y l1]].
  - injection Hl as <- _. destruct Hi as (mi & Hmi & Hid).
    injection Hmi as <-. vm_compute in Hid. discriminate Hid.
  - injection Hl as _ _ Hl. destruct l2; discriminate Hl.
  - injection Hl as _ _ Hl. destruct l1; discriminate Hl.
Qed.

(** C6, amended: in every state of the store, a list that reaches the store
    answers with every row of the table, each as its full card, ordered by
    [dt] descending, and with [count] equal to the number of cards
    returned.  For two cards created in sequence, the later-created card
    stands before the earlier one when the store stamped it with a strictly
    later [dt]. *)
Theorem C6_list_newest_first (e : env) (w : world) :
  can_read e = true ->
  exists (rows : list row) (cards : list pyval),
    fst (get_cards e w) =
      {| status := 200;
         body := PDict (<["cards" := PList cards]>
                       (<["count" := PInt (Z.of_nat (length cards))]> ∅)) |} /\
    Forall2 card_shows cards rows /\
    rows ≡ₚ table w /\
    StronglySorted (fun a b => dt b <= dt a) rows /\
    (forall (e1 e2 : env) (now1 now2 : Z) (req1 req2 : request) (w0 : world)
            (i1 i2 : Z),
       response_id (fst (process_business_card e1 now1 req1 w0)) = Some i1 ->
       response_id (fst (process_business_card e2 now2 req2
                           (snd (process_business_card e1 now1 req1 w0)))) =
         Some i2 ->
       w = snd (process_business_card e2 now2 req2
                  (snd (process_business_card e1 now1 req1 w0))) ->
       now1 < now2 ->
       listed_before cards i2 i1).
Proof.
  intros He.
  exists (merge_sort dt_desc (table w)), (row_dict <$> merge_sort dt_desc (table w)).
  rewrite (get_cards_readable e w He). simpl.
  split; [rewrite length_fmap; reflexivity|].
  split; [apply row_dicts_show|].
  assert (Hperm : merge_sort dt_desc (table w) ≡ₚ table w)
    by apply merge_sort_Permutation.
  assert (Hsort : StronglySorted dt_desc (merge_sort dt_desc (table w)))
    by (apply StronglySorted_merge_sort; apply _).
  split; [exact Hperm|]. split; [exact Hsort|].
  intros e1 e2 now1 now2 req1 req2 w0 i1 i2 H1 H2 Hw Hlt.
  destruct (create_outcome e1 now1 req1 w0)
    as [(f1 & _ & _ & _ & E1)|(_ & Hn1 & _)]; [|congruence].
  rewrite E1 in H1, H2, Hw. cbn [fst snd] in H1, H2, Hw.
  destruct (create_outcome e2 now2 req2 (saved now1 f1 w0))
    as [(f2 & _ & _ & _ & E2)|(_ & Hn2 & _)]; [|congruence].
  rewrite E2 in H2, Hw. cbn [fst snd] in H2, Hw.
  change (Some (next_id w0) = Some i1) in H1. injection H1 as <-.
  change (Some (next_id w0 + 1) = Some i2) in H2. injection H2 as <-.
  set (r1 := new_row (next_id w0) now1 f1).
  set (r2 := new_row (next_id w0 + 1) now2 f2).
  assert (Ht : table w = (table w0 ++ [r1]) ++ [r2]) by (rewrite Hw; reflexivity).
  destruct (sorted_later_first (merge_sort dt_desc (table w)) r2 r1 Hsort)
    as (l1 & l2 & l3 & Hrows).
  - rewrite Hperm, Ht. set_solver.
  - rewrite Hperm, Ht. set_solver.
  - exact Hlt.
  - exists (row_dict <$> l1), (row_dict <$> l2), (row_dict <$> l3),
      (row_dict r2), (row_dict r1).
    split; [rewrite Hrows, !fmap_app, !fmap_cons, !fmap_app, !fmap_cons;
            reflexivity|].
    split; [apply (card_shows_id _ r2), row_dict_shows
           |apply (card_shows_id _ r1), row_dict_shows].
Qed.

Lemma C6_list_newest_first_witness :
  exists (rows : list row) (cards : list pyval),
    fst (get_cards up two_cards) =
      {| status := 200;
         body := PDict (<["cards" := PList cards]>
                       (<["count" := PInt (Z.of_nat (length cards))]> ∅)) |} /\
    Forall2 card_shows cards rows /\
    rows ≡ₚ table two_cards /\
    listed_before cards 2 1.
Proof.
  destruct (C6_list_newest_first up two_cards eq_refl)
    as (rows & cards & Hb & Hshow & Hp & _ & Hseq).
  exists rows, cards. split; [exact Hb|]. split; [exact Hshow|].
  split; [exact Hp|].
  apply (Hseq up up 100 200 john_doe name_only empty_world 1 2);
    [reflexivity|reflexivity|reflexivity|lia].
Defined.

(** ** Ids (C5) *)

Lemma read_response_no_id (e : env) (w : world) :
  response_id (fst (get_cards e w)) = None /\
  next_id (snd (get_cards e w)) = next_id w /\
  table (snd (get_cards e w)) = table w.
Proof.
  destruct e as [[url|] [c|] [x|] m];
    unfold get_cards, try_except, bind, get_db_connection, execute_select_all,
      cursor, cursor_close, close, tell, ret, raise, emit; simpl;
    try destruct (truthy url); simpl; repeat split.
Qed.

Lemma get_card_no_id (e : env) (card_id : Z) (w : world) :
  response_id (fst (get_card e card_id w)) = None /\
  next_id (snd (get_card e card_id w)) = next_id w /\
  table (snd (get_card e card_id w)) = table w.
Proof.
  destruct (can_read e) eqn:He.
  - rewrite (get_card_readable e card_id w He). simpl.
    destruct (fetchone _); repeat split.
  - destruct (get_card_unreadable e card_id w He) as (msg & Hr & Ht & Hn).
    rewrite Hr. repeat split; assumption.
Qed.




Example run_three_requests :
  assigned_ids
    (fst (run [Create up 100 john_doe; Create up 150 empty_json;
               GetCard up 1; Create insert_fails 160 john_doe;
               Create up 200 name_only; ListCards up] empty_world))
  = [1; 2].
Proof. reflexivity. Qed.

(** ** Connections (C3) *)

(** When every driver call goes through, each handler closes the connection
    it opened, the create committing first. *)
Lemma handlers_release_when_store_up (e : env) (now : Z) (req : request)
    (card_id : Z) (w : world) (f : card_fields) :
  healthy e = true ->
  extract (request_data req) = Ok f -> has_key_field f = true ->
  log (snd (process_business_card e now req w)) =
    log w ++ [EConnect; ECursor; EExecute; ECommit; ECursorClose; EClose] /\
  log (snd (get_cards e w)) =
    log w ++ [EConnect; ECursor; EExecute; ECursorClose; EClose] /\
  log (snd (get_card e card_id w)) =
    log w ++ [EConnect; ECursor; EExecute; ECursorClose; EClose].
Proof.
  intros He Hx Hk.
  assert (Hr : can_read e = true).
  { destruct e as [[url|] [c|] [x|] [m|]]; try discriminate He. exact He. }
  rewrite (create_saved e now req w f Hx Hk He).
  rewrite (get_cards_readable e w Hr), (get_card_readable e card_id w Hr).
  repeat split.
Qed.

(** When the statement raises on an open connection, each handler returns
    with the connection still open: nothing is logged after the cursor. *)
Lemma handlers_return_without_close (e : env) (now : Z) (req : request)
    (card_id : Z) (w : world) (f : card_fields) (url msg : string) :
  database_url e = Some url -> truthy url = true ->
  connect_error e = None -> execute_error e = Some msg ->
  extract (request_data req) = Ok f -> has_key_field f = true ->
  process_business_card e now req w =
    (save_failed msg, emit ECursor (emit EConnect w)) /\
  snd (get_cards e w) = emit ECursor (emit EConnect w) /\
  snd (get_card e card_id w) = emit ECursor (emit EConnect w).
Proof.
  intros Hu Ht Hc He Hx Hk.
  rewrite process_business_card_extract, Hx, Hk. simpl.
  unfold get_cards, get_card, try_except, bind, get_db_connection,
    execute_insert, execute_select_all, execute_select_by_id, cursor, tell,
    raise.
  rewrite Hu, Ht, Hc, He. repeat split.
Qed.

(** C3, at an input where the claim fails: the card of [test_process_card]
    is posted to an empty store whose INSERT raises.  The handler answers
    500 and returns with the connection it opened still open; the list and
    get-by-id handlers do the same when their SELECT raises. *)
Theorem C3_connection_left_open :
  status (fst (process_business_card insert_fails 100 john_doe empty_world)) = 500 /\
  log (snd (process_business_card insert_fails 100 john_doe empty_world)) =
    [EConnect; ECursor] /\
  leaked (log (snd (process_business_card insert_fails 100 john_doe empty_world))) = 1%nat /\
  leaked (log (snd (get_cards insert_fails empty_world))) = 1%nat /\
  leaked (log (snd (get_card insert_fails 1 empty_world))) = 1%nat /\
  leaked (log (snd (process_business_card up 100 john_doe empty_world))) = 0%nat.
Proof. repeat split. Qed.

(** ** The store invariant *)

(** Every request keeps stored ids below the sequence and pairwise
    distinct, so the hypotheses of C2 and C7 hold in every store reached
    from the empty one. *)
Lemma step_keeps_ids (o : op) (w : world) :
  ids_below w -> NoDup (row_id <$> table w) ->
  ids_below (snd (step o w)) /\ NoDup (row_id <$> table (snd (step o w))).
Proof.
  intros Hb Hn. unfold ids_below in *.
  assert (Hsame : forall w', table w' = table w -> next_id w' = next_id w ->
            Forall (fun r => row_id r < next_id w') (table w') /\
            NoDup (row_id <$> table w')).
  { intros w' -> ->. split; assumption. }
  destruct o as [e now req|e|e card_id]; simpl.
  - destruct (create_outcome e now req w)
      as [(f & _ & _ & _ & ->)|(_ & _ & Ht & Hle)].
    + simpl. split.
      * apply Forall_app. split.
        -- eapply Forall_impl; [exact Hb|]. simpl. lia.
        -- repeat constructor. simpl. lia.
      * rewrite fmap_app. simpl. apply NoDup_app. split; [exact Hn|]. split.
        -- intros i Hi Hi'. apply list_elem_of_singleton in Hi'. subst i.
           apply list_elem_of_fmap in Hi as (r & Hr & Hin).
           rewrite Forall_forall in Hb. specialize (Hb r Hin). lia.
        -- apply NoDup_singleton.
    + rewrite Ht. split; [|exact Hn].
      eapply Forall_impl; [exact Hb|]. simpl. lia.
  - destruct (read_response_no_id e w) as (_ & Hnx & Ht). auto.
  - destruct (get_card_no_id e card_id w) as (_ & Hnx & Ht). auto.
Qed.

Lemma run_keeps_ids (ops : list op) (w : world) :
  ids_below w -> NoDup (row_id <$> table w) ->
  ids_below (snd (run ops w)) /\ NoDup (row_id <$> table (snd (run ops w))).
Proof.
  revert w. induction ops as [|o ops IH]; intros w Hb Hn; simpl.
  - split; assumption.
  - destruct (step_keeps_ids o w Hb Hn) as [Hb1 Hn1].
    destruct (step o w) as [r w1]. simpl in Hb1, Hn1.
    specialize (IH w1 Hb1 Hn1).
    destruct (run ops w1) as [rs w2]. exact IH.
Qed.

(** * Further properties of the handlers *)

(** ** How a create can end *)

(** The save part of the handler answers 200 or the 500 of the [except]
    clause, never anything else. *)
Lemma create_status_cases (e : env) (now : Z) (req : request) (w : world) :
  match extract (request_data req) with
  | Raise msg => process_business_card e now req w = (save_failed msg, w)
  | Ok f =>
      if has_key_field f then
        status (fst (process_business_card e now req w)) = 200 \/
        exists msg, fst (process_business_card e now req w) = save_failed msg
      else process_business_card e now req w = (validation_error, w)
  end.
Proof.
  rewrite process_business_card_extract.
  destruct (extract (request_data req)) as [f|msg]; [|reflexivity].
  destruct (has_key_field f); [|reflexivity]. simpl.
  destruct e as [[url|] [c|] [x|] [m|]];
    unfold try_except, bind, get_db_connection, execute_insert, assign_id,
      commit, cursor, cursor_close, close, tell, ret, raise, emit; simpl;
    try destruct (truthy url); simpl; eauto.
Qed.

Lemma has_key_field_false (f : card_fields) :
  has_key_field f = false <->
  f_name f = EmptyString /\ f_email f = EmptyString /\
  f_phone f = EmptyString /\ f_company f = EmptyString.
Proof.
  unfold has_key_field. rewrite !orb_false_iff, !truthy_false. tauto.
Qed.

(** X1: the create answers 400 exactly when all eight fields are strings
    (or absent) and name, email, phone and company are all empty after
    trimming; no other request is answered 400. *)
Theorem create_400_iff (e : env) (now : Z) (req : request) (w : world) :
  status (fst (process_business_card e now req w)) = 400 <->
  exists t_website t_title t_address t_notes : string,
    field (request_data req) "name" = Ok EmptyString /\
    field (request_data req) "email" = Ok EmptyString /\
    field (request_data req) "phone" = Ok EmptyString /\
    field (request_data req) "company" = Ok EmptyString /\
    field (request_data req) "website" = Ok t_website /\
    field (request_data req) "title" = Ok t_title /\
    field (request_data req) "address" = Ok t_address /\
    field (request_data req) "notes" = Ok t_notes.
Proof.
  pose proof (create_status_cases e now req w) as Hc.
  split.
  - intros H400.
    destruct (extract (request_data req)) as [f|msg] eqn:Hx.
    + destruct (has_key_field f) eqn:Hk.
      * destruct Hc as [H200|[msg Hm]].
        -- rewrite H200 in H400. discriminate.
        -- rewrite Hm in H400. discriminate.
      * apply has_key_field_false in Hk as (K1 & K2 & K3 & K4).
        destruct (extract_inv _ _ Hx) as (F1 & F2 & F3 & F4 & F5 & F6 & F7 & F8).
        exists (f_website f), (f_title f), (f_address f), (f_notes f).
        rewrite K1 in F1. rewrite K2 in F2. rewrite K3 in F3. rewrite K4 in F4.
        repeat split; assumption.
    + rewrite Hc in H400. discriminate.
  - intros (ws & t & a & n & F1 & F2 & F3 & F4 & F5 & F6 & F7 & F8).
    rewrite (extract_fields _ _ _ _ _ _ _ _ _ F1 F2 F3 F4 F5 F6 F7 F8) in Hc.
    simpl in Hc. rewrite Hc. reflexivity.
Qed.

(** X2: a JSON body that is not an object (a list, a string, a number, a
    boolean or null) is answered 500 with the [AttributeError] of
    [data.get], and the store is left as it was. *)
Theorem json_non_object_body (e : env) (now : Z) (v : pyval) (w : world) :
  (forall d, v <> PDict d) ->
  process_business_card e now (JsonBody v) w =
    ({| status := 500;
        body := PDict {[ "error" :=
          PStr ("Save failed: '" +:+ type_name v +:+
                "' object has no attribute 'get'") ]} |}, w).
Proof.
  intros Hv. rewrite process_business_card_extract. simpl.
  destruct v; try reflexivity. exfalso. eapply Hv. reflexivity.
Qed.

Lemma json_non_object_body_witness :
  process_business_card up 0 (JsonBody (PList [PStr "John Doe"])) empty_world =
    ({| status := 500;
        body := PDict {[ "error" :=
          PStr "Save failed: 'list' object has no attribute 'get'" ]} |},
     empty_world).
Proof.
  apply (json_non_object_body up 0 (PList [PStr "John Doe"]) empty_world).
  discriminate.
Defined.

Lemma form_field (f : gmap string string) (k : string) :
  field (request_data (FormBody f)) k = Ok (strip (default EmptyString (f !! k))).
Proof.
  unfold field, py_get. simpl. rewrite lookup_fmap.
  destruct (f !! k); reflexivity.
Qed.

(** X3: a form body is never ill-typed: a form POST is answered 500 only
    when a driver call fails; with the store up it is answered 200 or 400. *)
Theorem form_post_500_only_from_store (e : env) (now : Z)
    (f : gmap string string) (w : world) :
  status (fst (process_business_card e now (FormBody f) w)) = 500 ->
  healthy e = false.
Proof.
  intros H500.
  destruct (create_outcome e now (FormBody f) w)
    as [(fs & _ & _ & _ & Hs)|_].
  { rewrite Hs in H500. discriminate. }
  pose proof (create_status_cases e now (FormBody f) w) as Hc.
  unfold extract in Hc. rewrite !form_field in Hc.
  match type of Hc with
  | if has_key_field ?fs then _ else _ => destruct (has_key_field fs) eqn:Hk
  end.
  - destruct (healthy e) eqn:He; [|reflexivity].
    rewrite (create_saved e now (FormBody f) w _
               ltac:(unfold extract; rewrite !form_field; reflexivity) Hk He)
      in H500.
    discriminate.
  - rewrite Hc in H500. discriminate.
Qed.

Lemma form_post_500_only_from_store_witness :
  healthy insert_fails = false.
Proof.
  apply (form_post_500_only_from_store insert_fails 5
           (<["name" := "  Ada Lovelace "]> ∅) empty_world).
  reflexivity.
Defined.

Lemma get_cards_unreadable (e : env) (w : world) :
  can_read e = false ->
  exists msg,
    fst (get_cards e w) =
      {| status := 500; body := error_body ("Failed to fetch cards: " +:+ msg) |}.
Proof.
  intros He. destruct e as [[url|] [c|] [x|] m]; unfold can_read in He; simpl in He;
    unfold get_cards, try_except, bind, get_db_connection, execute_select_all,
      cursor, cursor_close, close, tell, ret, raise, emit; simpl;
    try destruct (truthy url); try discriminate He; simpl; eauto.
Qed.

(** X4: the create answers 200, 400 or 500, the list 200 or 500, the
    get-by-id 200, 404 or 500; every answer other than 200 has a body with
    the single key [error], bound to a string. *)
Theorem handlers_status_and_error_body (e : env) (now : Z) (req : request)
    (card_id : Z) (w : world) :
  (status (fst (process_business_card e now req w)) = 200 \/
   exists msg,
     body (fst (process_business_card e now req w)) =
       PDict {[ "error" := PStr msg ]} /\
     (status (fst (process_business_card e now req w)) = 400 \/
      status (fst (process_business_card e now req w)) = 500)) /\
  (status (fst (get_cards e w)) = 200 \/
   exists msg,
     body (fst (get_cards e w)) = PDict {[ "error" := PStr msg ]} /\
     status (fst (get_cards e w)) = 500) /\
  (status (fst (get_card e card_id w)) = 200 \/
   exists msg,
     body (fst (get_card e card_id w)) = PDict {[ "error" := PStr msg ]} /\
     (status (fst (get_card e card_id w)) = 404 \/
      status (fst (get_card e card_id w)) = 500)).
Proof.
  split; [|split].
  - pose proof (create_status_cases e now req w) as Hc.
    destruct (extract (request_data req)) as [f|msg].
    + destruct (has_key_field f).
      * destruct Hc as [H200|[msg Hm]]; [left; exact H200|].
        right. rewrite Hm. eexists. split; [reflexivity|right; reflexivity].
      * right. rewrite Hc. eexists. split; [reflexivity|left; reflexivity].
    + right. rewrite Hc. eexists. split; [reflexivity|right; reflexivity].
  - destruct (can_read e) eqn:He.
    + left. rewrite (get_cards_readable e w He). reflexivity.
    + right. destruct (get_cards_unreadable e w He) as [msg ->].
      eexists. split; reflexivity.
  - destruct (can_read e) eqn:He.
    + rewrite (get_card_readable e card_id w He). simpl.
      destruct (fetchone _).
      * left. reflexivity.
      * right. eexists. split; [reflexivity|left; reflexivity].
    + right. destruct (get_card_unreadable e card_id w He) as (msg & -> & _).
      eexists. split; [reflexivity|right; reflexivity].
Qed.

(** ** The table only grows *)

Lemma step_appends (o : op) (w : world) :
  exists new : list row,
    table (snd (step o w)) = table w ++ new /\
    row_id <$> new = assigned_ids [fst (step o w)].
Proof.
  destruct o as [e now req|e|e card_id]; simpl.
  - destruct (create_outcome e now req w)
      as [(f & _ & _ & _ & ->)|(_ & Hid & Ht & _)].
    + exists [new_row (next_id w) now f]. split; reflexivity.
    + exists []. rewrite app_nil_r. split; [exact Ht|].
      unfold assigned_ids. simpl. rewrite Hid. reflexivity.
  - destruct (read_response_no_id e w) as (Hid & _ & Ht).
    exists []. rewrite app_nil_r. split; [exact Ht|].
    unfold assigned_ids. simpl. rewrite Hid. reflexivity.
  - destruct (get_card_no_id e card_id w) as (Hid & _ & Ht).
    exists []. rewrite app_nil_r. split; [exact Ht|].
    unfold assigned_ids. simpl. rewrite Hid. reflexivity.
Qed.

Lemma run_appends (ops : list op) (w : world) :
  exists new : list row,
    table (snd (run ops w)) = table w ++ new /\
    row_id <$> new = assigned_ids (fst (run ops w)).
Proof.
  revert w. induction ops as [|o ops IH]; intros w; simpl.
  - exists []. rewrite app_nil_r. split; reflexivity.
  - destruct (step_appends o w) as (new1 & Ht1 & Hi1).
    destruct (step o w) as [r w1]. simpl in Ht1, Hi1.
    destruct (IH w1) as (new2 & Ht2 & Hi2).
    destruct (run ops w1) as [rs w2]. simpl in Ht2, Hi2 |- *.
    exists (new1 ++ new2). split.
    + rewrite Ht2, Ht1, app_assoc. reflexivity.
    + rewrite fmap_app, Hi1, Hi2. unfold assigned_ids. simpl.
      destruct (response_id r); reflexivity.
Qed.

(** X5: whatever requests are served, the rows already in the table stay
    where they are, unchanged; the table grows by exactly one row per
    successful create, in order, and the id of that row is the id the
    create returned. *)
Theorem table_append_only (ops : list op) (w : world) :
  exists new : list row,
    table (snd (run ops w)) = table w ++ new /\
    row_id <$> new = assigned_ids (fst (run ops w)).
Proof. apply run_appends. Qed.

(** ** Driver failures *)

(** X6: when [get_db_connection] raises, each handler answers 500 with its
    own prefix followed by the text of the exception, and nothing at all
    has happened to the store or on the connection log. *)
Theorem connection_failure_answers_500 (e : env) (now : Z) (req : request)
    (card_id : Z) (w : world) (f : card_fields) (msg : string) :
  get_db_connection e w = (Raise msg, w) ->
  extract (request_data req) = Ok f -> has_key_field f = true ->
  process_business_card e now req w =
    ({| status := 500;
        body := PDict {[ "error" := PStr ("Save failed: " +:+ msg) ]} |}, w) /\
  get_cards e w =
    ({| status := 500;
        body := PDict {[ "error" := PStr ("Failed to fetch cards: " +:+ msg) ]} |},
     w) /\
  get_card e card_id w =
    ({| status := 500;
        body := PDict {[ "error" := PStr ("Failed to fetch card: " +:+ msg) ]} |},
     w).
Proof.
  intros Hc Hx Hk.
  rewrite process_business_card_extract, Hx, Hk. simpl.
  unfold get_cards, get_card, try_except, bind. rewrite Hc.
  repeat split.
Qed.

(** Without [DATABASE_URL] the text is the [ValueError] of the helper. *)
Lemma connection_failure_answers_500_witness :
  process_business_card
      {| database_url := None; connect_error := None;
         execute_error := None; commit_error := None |}
      100 john_doe empty_world =
    ({| status := 500;
        body := PDict {[ "error" :=
          PStr "Save failed: DATABASE_URL environment variable is required" ]} |},
     empty_world).
Proof.
  apply (connection_failure_answers_500
           {| database_url := None; connect_error := None;
              execute_error := None; commit_error := None |}
           100 john_doe 1 empty_world john_doe_fields
           "DATABASE_URL environment variable is required");
    reflexivity.
Defined.

(** X7: when the INSERT went through and [conn.commit()] raises, the answer
    is 500 with the text of the exception and no row has reached the
    table; the connection is left open. *)
Theorem commit_failure_persists_nothing (e : env) (now : Z) (req : request)
    (w : world) (f : card_fields) (url msg : string) :
  database_url e = Some url -> truthy url = true ->
  connect_error e = None -> execute_error e = None ->
  commit_error e = Some msg ->
  extract (request_data req) = Ok f -> has_key_field f = true ->
  fst (process_business_card e now req w) =
    {| status := 500;
       body := PDict {[ "error" := PStr ("Save failed: " +:+ msg) ]} |} /\
  table (snd (process_business_card e now req w)) = table w /\
  log (snd (process_business_card e now req w)) =
    log w ++ [EConnect; ECursor; EExecute].
Proof.
  intros Hu Ht Hc He Hm Hx Hk.
  rewrite process_business_card_extract, Hx, Hk. simpl.
  unfold try_except, bind, get_db_connection, execute_insert, assign_id,
    commit, cursor, tell, ret, raise, emit.
  rewrite Hu, Ht, Hc, He. simpl. rewrite Hm. simpl.
  rewrite <- !app_assoc. repeat split.
Qed.

Lemma commit_failure_persists_nothing_witness :
  table (snd (process_business_card
                {| database_url := Some "postgresql://cards";
                   connect_error := None; execute_error := None;
                   commit_error := Some "server closed the connection" |}
                100 john_doe empty_world)) = [].
Proof.
  apply (commit_failure_persists_nothing
           {| database_url := Some "postgresql://cards";
              connect_error := None; execute_error := None;
              commit_error := Some "server closed the connection" |}
           100 john_doe empty_world john_doe_fields
           "postgresql://cards" "server closed the connection");
    reflexivity.
Defined.

(** ** Reads see the table and nothing else *)

Lemma get_card_table_only (e : env) (card_id : Z) (w w' : world) :
  table w = table w' ->
  fst (get_card e card_id w) = fst (get_card e card_id w').
Proof.
  intros Ht. destruct (can_read e) eqn:He.
  - rewrite !(get_card_readable e card_id _ He). simpl. rewrite Ht. reflexivity.
  - symmetry. apply get_card_unreadable_any. exact He.
Qed.

Lemma get_cards_table_only (e : env) (w w' : world) :
  table w = table w' ->
  fst (get_cards e w) = fst (get_cards e w').
Proof.
  intros Ht. destruct (can_read e) eqn:He.
  - rewrite !(get_cards_readable e _ He). simpl. rewrite Ht. reflexivity.
  - destruct e as [[url|] [c|] [x|] m]; unfold can_read in He; simpl in He;
      unfold get_cards, try_except, bind, get_db_connection, execute_select_all,
        cursor, cursor_close, close, tell, ret, raise, emit; simpl;
      try destruct (truthy url); try discriminate He; reflexivity.
Qed.

(** X8: a list leaves the table and the id sequence as it found them,
    whatever its outcome, and a second list under the same environment
    returns what the first one returned. *)
Theorem get_cards_read_only (e : env) (w : world) :
  table (snd (get_cards e w)) = table w /\
  next_id (snd (get_cards e w)) = next_id w /\
  fst (get_cards e (snd (get_cards e w))) = fst (get_cards e w).
Proof.
  destruct (read_response_no_id e w) as (_ & Hn & Ht).
  split; [exact Ht|]. split; [exact Hn|].
  apply get_cards_table_only. exact Ht.
Qed.

(** X9: a create that is not answered 200 is invisible to later reads: every
    get-by-id and every list returns what it would have returned had the
    create not been made. *)
Theorem failed_create_invisible (e e' : env) (now : Z) (req : request)
    (card_id : Z) (w : world) :
  status (fst (process_business_card e now req w)) <> 200 ->
  fst (get_card e' card_id (snd (process_business_card e now req w))) =
    fst (get_card e' card_id w) /\
  fst (get_cards e' (snd (process_business_card e now req w))) =
    fst (get_cards e' w).
Proof.
  intros Hne.
  destruct (create_outcome e now req w) as [(f & _ & _ & _ & Hs)|(_ & _ & Ht & _)].
  { rewrite Hs in Hne. contradiction. }
  split; [apply get_card_table_only|apply get_cards_table_only]; exact Ht.
Qed.

Lemma failed_create_invisible_witness :
  fst (get_card up 1 (snd (process_business_card insert_fails 300 name_only
                             two_cards))) =
    fst (get_card up 1 two_cards).
Proof.
  apply (failed_create_invisible insert_fails up 300 name_only 1 two_cards).
  discriminate.
Defined.

(** X10: in a store whose ids all lie below the sequence, a get-by-id of an
    id the sequence has not reached yet is answered 404. *)
Theorem get_unassigned_id_404 (e : env) (card_id : Z) (w : world) :
  ids_below w -> next_id w <= card_id -> can_read e = true ->
  fst (get_card e card_id w) =
    {| status := 404; body := PDict {[ "error" := PStr "Card not found" ]} |}.
Proof.
  intros Hb Hge He. rewrite (get_card_readable e card_id w He). simpl.
  rewrite filter_absent_id; [reflexivity|].
  intros r Hr. unfold ids_below in Hb. rewrite Forall_forall in Hb.
  specialize (Hb r Hr). lia.
Qed.

Lemma get_unassigned_id_404_witness :
  fst (get_card up 999999 two_cards) =
    {| status := 404; body := PDict {[ "error" := PStr "Card not found" ]} |}.
Proof.
  apply (get_unassigned_id_404 up 999999 two_cards).
  - unfold ids_below. simpl. repeat constructor.
  - change (3 <= 999999). lia.
  - reflexivity.
Defined.

(** X11: a stored card stays retrievable: in a store with distinct ids all
    below the sequence, a get-by-id of a stored row's id that reaches the
    store returns that row as its full card (the eight columns with the
    values the row holds), unchanged, after any further sequence of
    requests. *)
Theorem stored_card_stays_retrievable (ops : list op) (e : env) (r : row)
    (w : world) :
  ids_below w -> NoDup (row_id <$> table w) -> r ∈ table w ->
  can_read e = true ->
  exists c : pyval,
    fst (get_card e (row_id r) (snd (run ops w))) =
      {| status := 200; body := PDict {[ "card" := c ]} |} /\
    card_shows c r.
Proof.
  intros Hb Hn Hin He.
  destruct (run_keeps_ids ops w Hb Hn) as [_ Hn'].
  destruct (run_appends ops w) as (new & Ht & _).
  rewrite (get_card_readable e _ _ He). simpl.
  rewrite (filter_unique_id _ r Hn').
  - exists (row_dict r). split; [reflexivity|apply row_dict_shows].
  - rewrite Ht. apply elem_of_app. left. exact Hin.
Qed.

Lemma stored_card_stays_retrievable_witness :
  exists m : gmap string pyval,
    fst (get_card up 1
           (snd (run [Create up 300 john_doe; ListCards up;
                      Create insert_fails 310 name_only] two_cards))) =
      {| status := 200; body := PDict {[ "card" := PDict m ]} |} /\
    m !! "id" = Some (PInt 1) /\
    m !! "full_name" = Some (PStr "John Doe") /\
    m !! "email" = Some (PStr "john@techcorp.com") /\
    m !! "notes" =
      Some (PStr ("Title: Software Engineer" +:+ nl +:+
                  "Address: 123 Main St, City, State" +:+ nl +:+
                  "Notes: Met at tech conference 2024")) /\
    m !! "dt" = Some (PDatetime 100).
Proof.
  destruct (stored_card_stays_retrievable
              [Create up 300 john_doe; ListCards up;
               Create insert_fails 310 name_only]
              up (new_row 1 100 john_doe_fields) two_cards)
    as (c & Hc & m & -> & _ & Mid & Mfn & Mem & _ & _ & _ & Mnt & Mdt).
  - unfold ids_below. simpl. repeat constructor.
  - change (NoDup [1; 2]). apply NoDup_cons. split.
    + intros H. apply list_elem_of_singleton in H. discriminate H.
    + apply NoDup_singleton.
  - simpl. left.
  - reflexivity.
  - exists m. split; [exact Hc|]. repeat split; assumption.
Defined.

(** ** Empty and trimmed fields *)

(** X12: a field counts as empty after trimming exactly when the body does
    not bind it or binds it to a string made of whitespace only. *)
Theorem field_empty_iff (d : gmap string pyval) (k : string) :
  field (PDict d) k = Ok EmptyString <->
  d !! k = None \/ exists s, d !! k = Some (PStr s) /\ blank s = true.
Proof.
  unfold field, py_get. destruct (d !! k) as [v|] eqn:Hk; simpl.
  - split.
    + intros H. right. destruct v; try discriminate H.
      injection H as H. apply strip_empty_iff in H. eauto.
    + intros [H|(s & [= ->] & Hs)]; [discriminate|]. simpl.
      apply strip_empty_iff in Hs. rewrite Hs. reflexivity.
  - split; [left; reflexivity|reflexivity].
Qed.

(** X13: the five text columns a successful create takes from the request
    are stored without leading or trailing whitespace. *)
Theorem stored_columns_trimmed (e : env) (now : Z) (req : request) (w : world) :
  status (fst (process_business_card e now req w)) = 200 ->
  exists r : row,
    table (snd (process_business_card e now req w)) = table w ++ [r] /\
    forall (col : row -> option string) (s : string) (c : ascii),
      col ∈ [full_name; email; phone; company_name; website] ->
      col r = Some s ->
      (first_char s = Some c \/ last_char s = Some c) -> isspace c = false.
Proof.
  intros H200.
  destruct (create_outcome e now req w) as [(f & Hx & _ & _ & Hs)|(Hne & _)];
    [|contradiction].
  rewrite Hs. exists (new_row (next_id w) now f). split; [reflexivity|].
  destruct (extract_inv _ _ Hx) as (F1 & F2 & F3 & F4 & F5 & _).
  assert (Hstrip : forall k t, field (request_data req) k = Ok t -> strip t = t).
  { intros k t. unfold field. destruct (py_get _ _ _) as [v|]; [|discriminate].
    destruct v; simpl; try discriminate. intros [= <-]. apply strip_idem. }
  intros col s c Hcol Hs' Hc.
  assert (Ht : strip s = s).
  { repeat (apply elem_of_cons in Hcol as [->|Hcol]); [..|inversion Hcol];
      simpl in Hs'; injection Hs' as <-; eauto. }
  rewrite <- Ht in Hc. destruct (strip_trimmed s) as [Hf Hl].
  destruct Hc; eauto.
Qed.

Lemma stored_columns_trimmed_witness :
  exists r : row,
    table (snd (process_business_card up 5 name_only empty_world)) = [] ++ [r] /\
    forall (col : row -> option string) (s : string) (c : ascii),
      col ∈ [full_name; email; phone; company_name; website] ->
      col r = Some s ->
      (first_char s = Some c \/ last_char s = Some c) -> isspace c = false.
Proof.
  apply (stored_columns_trimmed up 5 name_only empty_world). reflexivity.
Defined.

(** ** Create, then list *)

(** X14: after a create that went through, a list that reaches the store
    counts one card more than the table held before, and the cards listed
    include the full card of the new row: its [id] is the id the create
    returned and its [dt] the time of the insert. *)
Theorem create_then_list (e e' : env) (now : Z) (req : request) (w : world) :
  status (fst (process_business_card e now req w)) = 200 ->
  can_read e' = true ->
  exists (i : Z) (r : row) (cards : list pyval) (c : pyval),
    response_id (fst (process_business_card e now req w)) = Some i /\
    fst (get_cards e' (snd (process_business_card e now req w))) =
      {| status := 200;
         body := PDict (<["cards" := PList cards]>
                       (<["count" := PInt (Z.of_nat (length (table w)) + 1)]> ∅)) |} /\
    c ∈ cards /\ card_shows c r /\ row_id r = i /\ dt r = now /\
    r ∈ table (snd (process_business_card e now req w)).
Proof.
  intros H200 He'.
  destruct (create_outcome e now req w) as [(f & _ & _ & _ & Hs)|(Hne & _)];
    [|contradiction].
  rewrite Hs. simpl.
  exists (next_id w), (new_row (next_id w) now f),
    (row_dict <$> merge_sort dt_desc (table w ++ [new_row (next_id w) now f])),
    (row_dict (new_row (next_id w) now f)).
  split; [reflexivity|].
  rewrite (get_cards_readable e' _ He'). simpl.
  assert (Hp := merge_sort_Permutation dt_desc
                  (table w ++ [new_row (next_id w) now f])).
  split.
  - rewrite (Permutation_length Hp), length_app. simpl.
    replace (Z.of_nat (length (table w) + 1)) with (Z.of_nat (length (table w)) + 1)
      by lia.
    reflexivity.
  - split.
    + apply list_elem_of_fmap. exists (new_row (next_id w) now f).
      split; [reflexivity|].
      rewrite Hp. apply elem_of_app. right. left.
    + split; [apply row_dict_shows|]. split; [reflexivity|].
      split; [reflexivity|]. apply elem_of_app. right. left.
Qed.

Lemma create_then_list_witness :
  exists (cards : list pyval) (m : gmap string pyval),
    fst (get_cards up (snd (process_business_card up 300 padded_card two_cards))) =
      {| status := 200;
         body := PDict (<["cards" := PList cards]>
                       (<["count" := PInt 3]> ∅)) |} /\
    PDict m ∈ cards /\
    m !! "id" = Some (PInt 3) /\
    m !! "dt" = Some (PDatetime 300).
Proof.
  destruct (create_then_list up up 300 padded_card two_cards eq_refl eq_refl)
    as (i & r & cards & c & Hi & Hb & Hin & (m & -> & _ & Mid & Mrest) & Hid & Hdt & _).
  exists cards, m. split; [exact Hb|]. split; [exact Hin|].
  change (response_id (fst (process_business_card up 300 padded_card two_cards)))
    with (Some 3) in Hi.
  assert (Hi3 : i = 3) by congruence.
  rewrite Hid, Hi3 in Mid. split; [exact Mid|].
  destruct Mrest as (_ & _ & _ & _ & _ & _ & Mdt). rewrite Hdt in Mdt. exact Mdt.
Defined.

(** X15: the create does not look for an existing card: posting the same
    request twice, both times successfully, stores two rows that agree on
    all six text columns and carry different ids. *)
Theorem same_card_twice (e1 e2 : env) (now1 now2 : Z) (req : request) (w : world) :
  status (fst (process_business_card e1 now1 req w)) = 200 ->
  status (fst (process_business_card e2 now2 req
                 (snd (process_business_card e1 now1 req w)))) = 200 ->
  exists r1 r2 : row,
    table (snd (process_business_card e2 now2 req
                  (snd (process_business_card e1 now1 req w)))) =
      table w ++ [r1; r2] /\
    row_id r1 < row_id r2 /\
    full_name r1 = full_name r2 /\ email r1 = email r2 /\
    phone r1 = phone r2 /\ company_name r1 = company_name r2 /\
    website r1 = website r2 /\ notes r1 = notes r2.
Proof.
  intros H1 H2.
  destruct (create_outcome e1 now1 req w) as [(f1 & Hx1 & _ & _ & Hs1)|(Hne & _)];
    [|contradiction].
  rewrite Hs1 in H2 |- *. cbn [fst snd] in H2 |- *.
  destruct (create_outcome e2 now2 req (saved now1 f1 w))
    as [(f2 & Hx2 & _ & _ & Hs2)|(Hne & _)]; [|contradiction].
  rewrite Hs2. cbn [fst snd].
  assert (f2 = f1) by congruence. subst f2.
  exists (new_row (next_id w) now1 f1), (new_row (next_id w + 1) now2 f1).
  simpl. rewrite <- app_assoc. simpl.
  split; [reflexivity|]. split; [lia|]. repeat split.
Qed.

Lemma same_card_twice_witness :
  exists r1 r2 : row,
    table (snd (process_business_card up 20 john_doe
                  (snd (process_business_card up 10 john_doe empty_world)))) =
      table empty_world ++ [r1; r2] /\
    row_id r1 < row_id r2 /\
    full_name r1 = full_name r2 /\ email r1 = email r2 /\
    phone r1 = phone r2 /\ company_name r1 = company_name r2 /\
    website r1 = website r2 /\ notes r1 = notes r2.
Proof.
  apply (same_card_twice up up 10 20 john_doe empty_world); reflexivity.
Defined.

(** ** The combined notes *)

(** X16: the combined notes are empty exactly when title, address and notes
    are all empty. *)
Theorem combined_notes_empty_iff (title address additional_notes : string) :
  join nl (notes_parts title address additional_notes) = EmptyString <->
  title = EmptyString /\ address = EmptyString /\
  additional_notes = EmptyString.
Proof.
  split.
  - destruct title, address, additional_notes; simpl; intros H;
      try discriminate H; repeat split.
  - intros (-> & -> & ->). reflexivity.
Qed.

Lemma append_empty_r (s : string) : s +:+ EmptyString = s.
Proof.
  induction s as [|c r IH]; [reflexivity|].
  change (String c (r +:+ EmptyString) = String c r). f_equal. exact IH.
Qed.

Lemma has_newline_head (c : ascii) (r : string) :
  has_newline (String c r) = false -> c <> ascii_of_nat 10.
Proof.
  simpl. intros H ->. discriminate H.
Qed.

(** Two newline-free prefixes followed by nothing or by a newline: equal
    wholes have equal prefixes and equal rests. *)
Lemma line_prefix_inj (p p' x x' : string) :
  has_newline p = false -> has_newline p' = false ->
  (x = EmptyString \/ exists y, x = String (ascii_of_nat 10) y) ->
  (x' = EmptyString \/ exists y, x' = String (ascii_of_nat 10) y) ->
  p +:+ x = p' +:+ x' -> p = p' /\ x = x'.
Proof.
  revert p'. induction p as [|c q IH]; intros [|c' q'] Hp Hp' Hx Hx' Heq;
    simpl in Heq.
  - split; [reflexivity|exact Heq].
  - exfalso. apply has_newline_head in Hp'.
    destruct Hx as [->|[y ->]]; [discriminate Heq|].
    injection Heq as Hc _. congruence.
  - exfalso. apply has_newline_head in Hp.
    destruct Hx' as [->|[y ->]]; [discriminate Heq|].
    injection Heq as Hc _. congruence.
  - injection Heq as -> Heq.
    simpl in Hp, Hp'. apply orb_false_iff in Hp as [_ Hp].
    apply orb_false_iff in Hp' as [_ Hp'].
    destruct (IH q' Hp Hp' Hx Hx' Heq) as [-> ->]. split; reflexivity.
Qed.

Lemma join_cons (p : string) (rest : list string) :
  join nl (p :: rest) =
  p +:+ match rest with [] => EmptyString | _ => nl +:+ join nl rest end.
Proof.
  destruct rest; [|reflexivity]. simpl. rewrite append_empty_r. reflexivity.
Qed.

(** Joining non-empty, newline-free lines with newlines loses nothing. *)
Lemma join_lines_inj (l1 l2 : list string) :
  Forall (fun p => has_newline p = false /\ p <> EmptyString) l1 ->
  Forall (fun p => has_newline p = false /\ p <> EmptyString) l2 ->
  join nl l1 = join nl l2 -> l1 = l2.
Proof.
  intros H1. revert l2.
  induction H1 as [|p rest [Hp Hne] Hrest IH]; intros l2 H2 Heq.
  - destruct H2 as [|p' rest' [Hp' Hne'] _]; [reflexivity|].
    exfalso. rewrite join_cons in Heq. simpl in Heq.
    destruct p'; [congruence|discriminate Heq].
  - destruct H2 as [|p' rest' [Hp' Hne'] Hrest'].
    + exfalso. rewrite join_cons in Heq. simpl in Heq.
      destruct p; [congruence|discriminate Heq].
    + rewrite !join_cons in Heq.
      apply line_prefix_inj in Heq as [-> Htail]; try assumption.
      * f_equal. destruct rest as [|q rest], rest' as [|q' rest'];
          try reflexivity; try discriminate Htail.
        apply IH; [exact Hrest'|]. injection Htail as Htail. exact Htail.
      * destruct rest; [left; reflexivity|right; eexists; reflexivity].
      * destruct rest'; [left; reflexivity|right; eexists; reflexivity].
Qed.

Lemma notes_parts_lines (t a n : string) :
  has_newline t = false -> has_newline a = false -> has_newline n = false ->
  Forall (fun p => has_newline p = false /\ p <> EmptyString) (notes_parts t a n).
Proof.
  intros Ht Ha Hn. unfold notes_parts.
  repeat apply Forall_app_2;
    match goal with
    | |- Forall _ (if truthy ?s then _ else _) =>
        destruct (truthy s); constructor; [|constructor]
    end;
    (split; [simpl; assumption|discriminate]).
Qed.

Lemma notes_parts_inj (t a n t' a' n' : string) :
  notes_parts t a n = notes_parts t' a' n' -> t = t' /\ a = a' /\ n = n'.
Proof.
  unfold notes_parts.
  destruct t, a, n, t', a', n'; cbv; intros H;
    try discriminate H; repeat split; congruence.
Qed.

(** X17: when title, address and notes hold no newline, the combined notes
    determine all three: two requests with the same combined notes have the
    same title, address and notes. *)
Theorem combined_notes_injective (t a n t' a' n' : string) :
  has_newline t = false -> has_newline a = false -> has_newline n = false ->
  has_newline t' = false -> has_newline a' = false -> has_newline n' = false ->
  join nl (notes_parts t a n) = join nl (notes_parts t' a' n') ->
  t = t' /\ a = a' /\ n = n'.
Proof.
  intros Ht Ha Hn Ht' Ha' Hn' Heq.
  apply notes_parts_inj.
  apply join_lines_inj; auto using notes_parts_lines.
Qed.

Lemma combined_notes_injective_witness :
  "Software Engineer" = "Software Engineer" /\ EmptyString = EmptyString /\
  "Met at tech conference 2024" = "Met at tech conference 2024".
Proof.
  apply (combined_notes_injective
           "Software Engineer" EmptyString "Met at tech conference 2024"
           "Software Engineer" EmptyString "Met at tech conference 2024");
    reflexivity.
Defined.

(** With a newline in a sub-field the combined notes can coincide. *)
Example combined_notes_ambiguous :
  join nl (notes_parts ("Engineer" +:+ nl +:+ "Notes: call back")
             EmptyString EmptyString) =
  join nl (notes_parts "Engineer" EmptyString "call back").
Proof. reflexivity. Qed.

(** * Startup *)

Lemma initialize_database_readable (e : env) (catalog : list (string * string))
    (w : world) :
  can_read e = true ->
  initialize_database e catalog w = (column_report catalog, after_read w).
Proof.
  intros He. destruct e as [[url|] [c|] [x|] m]; try discriminate He.
  unfold can_read in He; simpl in He.
  unfold initialize_database, connection_error_output, try_except, bind,
    get_db_connection, execute_select_columns, cursor, cursor_close, close,
    tell, ret, emit, after_read; simpl.
  rewrite He; simpl. rewrite <- !app_assoc. reflexivity.
Qed.

(** X18: the startup check never changes the table or the id sequence, in
    any environment, and it always prints at least one line. *)
Theorem initialize_database_read_only (e : env)
    (catalog : list (string * string)) (w : world) :
  table (snd (initialize_database e catalog w)) = table w /\
  next_id (snd (initialize_database e catalog w)) = next_id w /\
  fst (initialize_database e catalog w) <> [].
Proof.
  destruct e as [[url|] [c|] [x|] m];
    unfold initialize_database, connection_error_output, try_except, bind,
      get_db_connection, execute_select_columns, cursor, cursor_close, close,
      tell, ret, raise, emit, column_report; simpl;
    try destruct (truthy url); simpl;
    try destruct catalog; simpl; repeat split; discriminate.
Qed.

(** X19: when the startup check reaches the store it closes its connection
    and prints either the warning that the table was not found, exactly when
    the catalog lists no column for it, or a header with the number of
    columns followed by one line per column, in catalog order. *)
Theorem initialize_database_report (e : env)
    (catalog : list (string * string)) (w : world) :
  can_read e = true ->
  log (snd (initialize_database e catalog w)) =
    log w ++ [EConnect; ECursor; EExecute; ECursorClose; EClose] /\
  (catalog = [] <->
   fst (initialize_database e catalog w) =
     ["Warning: business_cards table not found!"]) /\
  (catalog <> [] ->
   fst (initialize_database e catalog w) =
     ("Database connection verified. Found business_cards table with "
        +:+ pretty (length catalog) +:+ " columns.")
     :: ((fun col => "  - " +:+ fst col +:+ ": " +:+ snd col) <$> catalog)).
Proof.
  intros He. rewrite (initialize_database_readable e catalog w He). simpl.
  split; [reflexivity|]. split.
  - split; [intros ->; reflexivity|].
    destruct catalog as [|col rest]; [reflexivity|].
    simpl. intros H. injection H as H _. discriminate H.
  - destruct catalog; [contradiction|reflexivity].
Qed.

Lemma initialize_database_report_witness :
  fst (initialize_database up expected_catalog empty_world) =
    ("Database connection verified. Found business_cards table with "
       +:+ pretty (length expected_catalog) +:+ " columns.")
    :: ((fun col => "  - " +:+ fst col +:+ ": " +:+ snd col) <$> expected_catalog).
Proof.
  apply (proj2 (proj2 (initialize_database_report up expected_catalog
                         empty_world eq_refl))).
  discriminate.
Defined.

(** X20: when the startup check cannot read the catalog it still returns.
    If [get_db_connection] raised, it prints the helper's connection error
    and then the initialization error, both with the text of that
    exception, and no connection was opened.  If the catalog query raised
    on an open connection, it prints the initialization error with the
    text of that exception and leaves the connection open.  There is no
    other way for the check to fail to read the catalog. *)
Theorem initialize_database_failure (e : env)
    (catalog : list (string * string)) (w : world) :
  (forall msg,
     get_db_connection e w = (Raise msg, w) ->
     initialize_database e catalog w =
       (["Database connection error: " +:+ msg;
         "Database initialization error: " +:+ msg], w)) /\
  (forall msg,
     get_db_connection e w = (Ok tt, emit EConnect w) ->
     execute_error e = Some msg ->
     fst (initialize_database e catalog w) =
       ["Database initialization error: " +:+ msg] /\
     table (snd (initialize_database e catalog w)) = table w /\
     log (snd (initialize_database e catalog w)) = log w ++ [EConnect; ECursor]) /\
  (can_read e = false ->
   (exists msg, get_db_connection e w = (Raise msg, w)) \/
   (exists msg, get_db_connection e w = (Ok tt, emit EConnect w) /\
                execute_error e = Some msg)).
Proof.
  split; [|split].
  - intros msg Hc.
    unfold initialize_database, connection_error_output, try_except, bind.
    rewrite Hc. reflexivity.
  - intros msg Hc Hx.
    unfold initialize_database, connection_error_output, try_except, bind.
    rewrite Hc. unfold cursor, tell, execute_select_columns. rewrite Hx.
    unfold raise, emit. simpl. rewrite <- app_assoc. repeat split.
  - intros He. destruct e as [[url|] [c|] [x|] m];
      unfold can_read in He; simpl in He; unfold get_db_connection, raise, tell;
      simpl; try destruct (truthy url); try discriminate He; eauto.
Qed.

Lemma initialize_database_failure_witness :
  initialize_database unreachable expected_catalog empty_world =
    (["Database connection error: could not connect to server";
      "Database initialization error: could not connect to server"],
     empty_world)
  /\ fst (initialize_database insert_fails expected_catalog empty_world) =
       ["Database initialization error: relation does not exist"]
  /\ log (snd (initialize_database insert_fails expected_catalog empty_world)) =
       [EConnect; ECursor].
Proof.
  split; [|split].
  - apply (proj1 (initialize_database_failure unreachable expected_catalog
                    empty_world) "could not connect to server").
    reflexivity.
  - apply (proj1 (proj2 (initialize_database_failure insert_fails
                           expected_catalog empty_world))
             "relation does not exist"); reflexivity.
  - apply (proj1 (proj2 (initialize_database_failure insert_fails
                           expected_catalog empty_world))
             "relation does not exist"); reflexivity.
Defined.

(** * The test script *)

Lemma test_data_fields :
  extract (request_data (JsonBody (PDict (PStr <$> test_data)))) = Ok john_doe_fields
  /\ extract (request_data (FormBody test_data)) = Ok john_doe_fields.
Proof. split; reflexivity. Qed.

(** A POST of the test card either stores the John Doe row under the id it
    returns, or is not answered 200 and leaves the table alone. *)
Lemma post_test_card (e : env) (now : Z) (req : request) (w : world) :
  extract (request_data req) = Ok john_doe_fields ->
  (status (fst (process_business_card e now req w)) = 200 /\
   response_id (fst (process_business_card e now req w)) = Some (next_id w) /\
   table (snd (process_business_card e now req w)) =
     table w ++ [new_row (next_id w) now john_doe_fields])
  \/ (status (fst (process_business_card e now req w)) <> 200 /\
      table (snd (process_business_card e now req w)) = table w).
Proof.
  intros Hx.
  destruct (create_outcome e now req w)
    as [(f & Hx' & _ & _ & ->)|(Hne & _ & Ht & _)].
  - left. assert (f = john_doe_fields) by congruence. subst f.
    repeat split.
  - right. split; assumption.
Qed.

Lemma test_process_card_outcome (s : session) (w : world) :
  (fst (test_process_card s w) = None /\
   table (snd (test_process_card s w)) = table w)
  \/ (exists i now,
        fst (test_process_card s w) = Some i /\
        table (snd (test_process_card s w)) =
          table w ++ [new_row i now john_doe_fields]).
Proof.
  unfold test_process_card. destruct (server_up s); [|left; split; reflexivity].
  destruct test_data_fields as [Hj Hf].
  pose proof (post_test_card (e_json s) (now_json s) _ w Hj) as H1.
  destruct (process_business_card (e_json s) (now_json s) _ w) as [r w1].
  simpl in H1. destruct H1 as [(H200 & Hid & Ht)|(Hne & Ht)].
  - rewrite bool_decide_eq_true_2 by exact H200. simpl.
    right. exists (next_id w), (now_json s). split; assumption.
  - rewrite bool_decide_eq_false_2 by exact Hne.
    pose proof (post_test_card (e_form s) (now_form s) _ w1 Hf) as H2.
    destruct (process_business_card (e_form s) (now_form s) _ w1) as [r2 w2].
    simpl in H2. destruct H2 as [(H200 & Hid & Ht2)|(Hne2 & Ht2)].
    + rewrite bool_decide_eq_true_2 by exact H200. simpl.
      right. exists (next_id w1), (now_form s).
      split; [exact Hid|]. rewrite Ht2, Ht. reflexivity.
    + rewrite bool_decide_eq_false_2 by exact Hne2. simpl.
      left. split; [reflexivity|]. rewrite Ht2, Ht. reflexivity.
Qed.

(** X21: [test_process_card] never stores more than one card: it returns
    [None] and leaves the table as it was, or it returns an id and the
    table has grown by the one John Doe row that carries this id. *)
Theorem test_process_card_at_most_one_card (s : session) (w : world) :
  (fst (test_process_card s w) = None /\
   table (snd (test_process_card s w)) = table w)
  \/ (exists r : row,
        fst (test_process_card s w) = Some (row_id r) /\
        table (snd (test_process_card s w)) = table w ++ [r] /\
        full_name r = Some "John Doe" /\ email r = Some "john@techcorp.com" /\
        phone r = Some "5551234567" /\ company_name r = Some "Tech Corp" /\
        website r = Some "techcorp.com").
Proof.
  destruct (test_process_card_outcome s w) as [H|(i & now & Hi & Ht)].
  - left. exact H.
  - right. exists (new_row i now john_doe_fields). repeat split; assumption.
Qed.

Lemma test_get_cards_table (s : session) (w : world) :
  table (snd (test_get_cards s w)) = table w.
Proof.
  unfold test_get_cards. destruct (server_up s); [|reflexivity].
  destruct (read_response_no_id (e_cards s) w) as (_ & _ & Ht).
  destruct (get_cards (e_cards s) w). exact Ht.
Qed.

Lemma test_get_single_card_table (s : session) (cid : option Z) (w : world) :
  table (snd (test_get_single_card s cid w)) = table w.
Proof.
  unfold test_get_single_card, route_get_card.
  destruct (falsy_id cid); [reflexivity|].
  destruct (server_up s); [|reflexivity].
  destruct (bool_decide _); [reflexivity|].
  destruct (get_card_no_id (e_card s) (default 0 cid) w) as (_ & _ & Ht).
  destruct (get_card (e_card s) (default 0 cid) w). exact Ht.
Qed.

(** X22: when [main] exits with status 0, the service was reachable and the
    table holds one more row than before, the John Doe card. *)
Theorem main_success_means_stored (s : session) (w : world) :
  snd (fst (main s w)) = 0 ->
  server_up s = true /\
  exists i now,
    table (snd (main s w)) = table w ++ [new_row i now john_doe_fields].
Proof.
  unfold main.
  pose proof (test_process_card_outcome s w) as H2.
  destruct (test_process_card s w) as [cid w1].
  pose proof (test_get_cards_table s w1) as H3.
  destruct (test_get_cards s w1) as [ok3 w2].
  pose proof (test_get_single_card_table s cid w2) as H4.
  destruct (test_get_single_card s cid w2) as [ok4 w3].
  simpl in *. intros Hexit.
  assert (Hup : server_up s = true).
  { unfold test_health_check in Hexit. destruct (server_up s); [reflexivity|].
    destruct cid, ok3, ok4; discriminate Hexit. }
  split; [exact Hup|].
  destruct H2 as [[-> _]|(i & now & -> & Ht)].
  - exfalso. destruct (test_health_check s), ok3, ok4; discriminate Hexit.
  - exists i, now. rewrite H4, H3. exact Ht.
Qed.

Lemma main_success_means_stored_witness :
  server_up json_post_fails = true /\
  exists i now,
    table (snd (main json_post_fails empty_world)) =
      table empty_world ++ [new_row i now john_doe_fields].
Proof.
  apply (main_success_means_stored json_post_fails empty_world). reflexivity.
Defined.

(** X23: with the service unreachable [main] exits with status 1 and
    changes nothing, yet reports one test out of four as passed: the
    single-card test is skipped and counted. *)
Theorem main_server_down (s : session) (w : world) :
  server_up s = false ->
  main s w = ((1%nat, 1), w).
Proof.
  intros Hup. unfold main, test_health_check, test_process_card,
    test_get_cards, test_get_single_card.
  rewrite Hup. reflexivity.
Qed.

Lemma main_server_down_witness :
  main server_down two_cards = ((1%nat, 1), two_cards).
Proof. apply (main_server_down server_down two_cards). reflexivity. Defined.

Lemma filter_head_some (rows : list row) (r : row) (card_id : Z) :
  r ∈ rows -> row_id r = card_id ->
  exists c, fetchone (filter (fun r' => row_id r' = card_id) rows) = Some c.
Proof.
  intros Hin Hid.
  assert (Hf : r ∈ filter (fun r' => row_id r' = card_id) rows)
    by (apply list_elem_of_filter; split; assumption).
  unfold fetchone. destruct (filter _ rows) as [|c l]; [inversion Hf|].
  exists c. reflexivity.
Qed.

(** X24: against a reachable service whose store lets the JSON POST, the
    list and the get through, [main] passes four tests out of four, exits
    with status 0, and has stored exactly the John Doe card, by the JSON
    POST; the form POST is not made. *)
Theorem main_all_up (s : session) (w : world) :
  server_up s = true -> healthy (e_json s) = true ->
  can_read (e_cards s) = true -> can_read (e_card s) = true ->
  0 <= next_id w ->
  fst (main s w) = (4%nat, 0) /\
  table (snd (main s w)) =
    table w ++ [new_row (next_id w) (now_json s) john_doe_fields].
Proof.
  intros Hup Hj Hcs Hc Hpos.
  unfold main, test_health_check, test_process_card, test_get_cards,
    test_get_single_card, route_get_card.
  rewrite Hup.
  rewrite (create_saved (e_json s) (now_json s) _ w john_doe_fields
             (proj1 test_data_fields) eq_refl Hj).
  rewrite bool_decide_eq_true_2 by reflexivity.
  rewrite (get_cards_readable (e_cards s) _ Hcs).
  change (response_id _) with (Some (next_id w)).
  unfold falsy_id. destruct (bool_decide (next_id w = 0)) eqn:Hz.
  - split; reflexivity.
  - change (default 0 (Some (next_id w))) with (next_id w).
    rewrite bool_decide_eq_false_2 by lia.
    rewrite (get_card_readable (e_card s) _ _ Hc).
    destruct (filter_head_some
                (table (after_read (saved (now_json s) john_doe_fields w)))
                (new_row (next_id w) (now_json s) john_doe_fields) (next_id w))
      as [c Hc'].
    + simpl. apply elem_of_app. right. left.
    + reflexivity.
    + rewrite Hc'. split; reflexivity.
Qed.

Lemma main_all_up_witness :
  fst (main all_up two_cards) = (4%nat, 0) /\
  table (snd (main all_up two_cards)) =
    table two_cards ++ [new_row (next_id two_cards) 100 john_doe_fields].
Proof.
  apply (main_all_up all_up two_cards); try reflexivity.
  change (0 <= 3). lia.
Defined.

(** * Connections over all requests *)

Ltac run_driver :=
  unfold try_except, bind, get_db_connection, execute_insert, assign_id,
    execute_select_all, execute_select_by_id, commit, cursor, cursor_close,
    close, tell, ret, raise, emit; simpl.

Ltac log_suffix :=
  simpl; rewrite <- ?app_assoc; simpl;
  first
    [ exists []; rewrite app_nil_r; split; [reflexivity|]
    | eexists; split; [reflexivity|] ];
  vm_compute; repeat split; intros; try lia; congruence.

(** X25: every request opens at most one connection.  A request that is not
    answered 500 has closed the connection it opened; a request answered
    500 has closed none. *)
Theorem connections_closed_unless_500 (o : op) (w : world) :
  exists evs : list event,
    log (snd (step o w)) = log w ++ evs /\
    (opened evs <= 1)%nat /\
    (status (fst (step o w)) <> 500 -> closed evs = opened evs) /\
    (status (fst (step o w)) = 500 -> closed evs = 0%nat).
Proof.
  destruct o as [e now req|e|e card_id]; simpl.
  - rewrite process_business_card_extract.
    destruct (extract (request_data req)) as [f|msg]; [|log_suffix].
    destruct (has_key_field f); [|log_suffix]. simpl.
    destruct e as [[url|] [c|] [x|] [m|]]; run_driver;
      try destruct (truthy url); log_suffix.
  - unfold get_cards.
    destruct e as [[url|] [c|] [x|] m]; run_driver;
      try destruct (truthy url); log_suffix.
  - unfold get_card.
    destruct e as [[url|] [c|] [x|] m]; run_driver;
      try destruct (truthy url); simpl;
      try destruct (fetchone _); log_suffix.
Qed.
